(** * switcheroo-control: GPU detection and D-Bus publication

    A shallow embedding of [src/switcheroo-control.c].  C strings that may
    be [NULL] are [option string]; [GPtrArray]s are lists; udev property
    tables are finite maps; the [ControlData] singleton and the system bus
    are threaded explicitly through the callbacks. *)

From Stdlib Require Import String List Bool Arith Lia.
From stdpp Require Import base option list strings gmap.

Set Warnings "-register-all".

Local Open Scope string_scope.
Local Open Scope list_scope.

(** ** The udev side (libgudev, seen through the accessors the daemon calls) *)

(** A [GUdevDevice].  [sysfs_boolean] is the answer of
    [g_udev_device_get_sysfs_attr_as_boolean] for each attribute name. *)
Inductive GUdevDevice : Type := MkGUdevDevice {
  device_file : option string;
  driver : option string;
  properties : gmap string string;
  sysfs_boolean : string -> bool;
  parent : option GUdevDevice
}.

(** The accessors are called on pointers that may be [NULL] (a device
    without parent); gudev's [g_return_val_if_fail] guards then answer
    [NULL] or [FALSE]. *)
Definition g_udev_device_get_parent (d : GUdevDevice) : option GUdevDevice :=
  parent d.

Definition g_udev_device_get_driver (d : option GUdevDevice) : option string :=
  match d with
  | Some dev => driver dev
  | None => None
  end.

Definition g_udev_device_get_property (d : option GUdevDevice) (key : string)
  : option string :=
  match d with
  | Some dev => properties dev !! key
  | None => None
  end.

Definition g_udev_device_get_sysfs_attr_as_boolean (d : option GUdevDevice)
  (attr : string) : bool :=
  match d with
  | Some dev => sysfs_boolean dev attr
  | None => false
  end.

Definition g_udev_device_get_device_file (d : GUdevDevice) : option string :=
  device_file d.

(** [g_strcmp0 (a, b) == 0] for a possibly-[NULL] [a] and a literal [b]. *)
Definition g_strcmp0_is_0 (a : option string) (b : string) : bool :=
  match a with
  | Some s => String.eqb s b
  | None => false
  end.

(** [g_str_has_prefix (s, p)]. *)
Definition g_str_has_prefix (s p : string) : bool := String.prefix p s.

(** [!s || *s == '\0'] *)
Definition null_or_empty (s : option string) : bool :=
  match s with
  | None => true
  | Some v => String.eqb v EmptyString
  end.

Definition is_null {A : Type} (p : option A) : bool :=
  match p with
  | None => true
  | Some _ => false
  end.

(** ** Cards *)

(** [name_allocated] records where [name] points: at a string the
    allocator handed out ([g_strdup], [info_cleanup]) or at a string
    literal.  [free_card_data] passes the pointer to [g_free]. *)
Record CardData : Type := MkCardData {
  dev : option GUdevDevice;
  name : string;
  name_allocated : bool;
  env : list string;
  is_default : bool
}.

(** The "Detection" half of [ControlData], plus the two D-Bus fields the
    callbacks read.  [GPtrArray.len] is a [guint]; [g_ptr_array_add] aborts
    rather than wrap, so a list length is the count the code sees. *)
Record GDBusConnection : Type := MkConnection { bus_id : nat }.

Record ControlData : Type := MkControlData {
  connection : option GDBusConnection;
  init_done : bool;
  add_fake_cards : bool;
  num_gpus : nat;
  cards : list CardData
}.

(** ** get_card_env (lines 234-275) *)

Definition nvidia_env : list string :=
  [ "__GLX_VENDOR_LIBRARY_NAME"; "nvidia";
    "__NV_PRIME_RENDER_OFFLOAD"; "1";
    "__VK_LAYER_NV_optimus"; "NVIDIA_only" ].

Definition get_card_env (d : GUdevDevice) : option (list string) :=
  let parent := g_udev_device_get_parent d in
  let array :=
    if g_strcmp0_is_0 (g_udev_device_get_driver parent) "nvidia" then
      nvidia_env
    else
      match g_udev_device_get_property (Some d) "ID_PATH_TAG" with
      | Some id => [ "DRI_PRIME"; id ]
      | None => []
      end in
  if Nat.eqb (length array) 0 then None else Some array.

(** The array is a flat key, value, key, value, ... sequence; this reads
    it back as pairs. *)
Fixpoint env_pairs (l : list string) : list (string * string) :=
  match l with
  | k :: v :: rest => (k, v) :: env_pairs rest
  | _ => []
  end.

(** The resolver as the specification names it: the sequence of pairs,
    empty where [get_card_env] answers [NULL]. *)
Definition resolve_environment (d : GUdevDevice) : list (string * string) :=
  match get_card_env d with
  | Some array => env_pairs array
  | None => []
  end.

Section Daemon.

(** [info_cleanup] lives in [info-cleanup.c]; only its type is used. *)
Variable info_cleanup : string -> string.

(** ** get_card_name (lines 277-304) *)

(** Lines 285-287 and 288-290: the values of the locals [vendor] and
    [product] once the fallbacks have run. *)
Definition card_vendor (parent : option GUdevDevice) : option string :=
  let vendor := g_udev_device_get_property parent "SWITCHEROO_CONTROL_VENDOR_NAME" in
  if null_or_empty vendor
  then g_udev_device_get_property parent "ID_VENDOR_FROM_DATABASE"
  else vendor.

Definition card_product (parent : option GUdevDevice) : option string :=
  let product := g_udev_device_get_property parent "SWITCHEROO_CONTROL_PRODUCT_NAME" in
  if null_or_empty product
  then g_udev_device_get_property parent "ID_MODEL_FROM_DATABASE"
  else product.

Definition unknown_name : string := "Unknown Graphics Controller".

(** Lines 292-303, on the two locals. *)
Definition name_of_vendor_product (vendor product : option string) : string :=
  match vendor, product with
  | None, None => unknown_name                       (* goto bail *)
  | None, Some p => p                                (* g_strdup (product) *)
  | Some v, None => v                                (* g_strdup (vendor) *)
  | Some v, Some p => info_cleanup (v +:+ " " +:+ p) (* "%s %s" *)
  end.

Definition get_card_name (d : GUdevDevice) : string :=
  let parent := g_udev_device_get_parent d in
  name_of_vendor_product (card_vendor parent) (card_product parent).

(** ** get_card_is_default (lines 306-313) *)

Definition get_card_is_default (d : GUdevDevice) : bool :=
  let parent := g_udev_device_get_parent d in
  g_udev_device_get_sysfs_attr_as_boolean parent "boot_vga".

(** ** get_card_data (lines 315-333) *)

Definition get_card_data (d : GUdevDevice) : option CardData :=
  match get_card_env d with
  | None => None
  | Some e =>
      Some {| dev := Some d;
              name := get_card_name d;
              name_allocated := true;
              env := e;
              is_default := get_card_is_default d |}
  end.

(** ** The two synthetic cards (lines 335-372); [g_new0] leaves [dev]
    [NULL] and [is_default] [FALSE]. *)

Definition fake_intel_card : CardData :=
  {| dev := None;
     name := "Intel i740 “Auburn”";
     name_allocated := false;
     env := [ "INTEL_AGP_OFFLOADING"; "1"; "INTEL_PCI_MODE"; "false" ];
     is_default := false |}.

Definition fake_trident_card : CardData :=
  {| dev := None;
     name := "Trident Vesa Local Bus 512KB";
     name_allocated := false;
     env := [ "TRIDENT_OFFLOADING"; "1" ];
     is_default := false |}.

Definition add_fake_intel_card (cards : list CardData) : list CardData :=
  cards ++ [fake_intel_card].

Definition add_fake_trident_card (cards : list CardData) : list CardData :=
  cards ++ [fake_trident_card].

(** ** get_drm_cards (lines 374-412) *)

(** The test of lines 390-392. *)
Definition is_render_node (d : GUdevDevice) : bool :=
  match g_udev_device_get_device_file d with
  | Some path => g_str_has_prefix path "/dev/dri/render"
  | None => false
  end.

(** The [for] loop of lines 386-399, over the answer [devices] of
    [g_udev_client_query_by_subsystem (client, "drm")]. *)
Fixpoint scan_devices (devices : list GUdevDevice) (cards : list CardData)
  : list CardData :=
  match devices with
  | [] => cards
  | d :: l =>
      if is_render_node d then
        match get_card_data d with
        | Some card => scan_devices l (cards ++ [card])
        | None => scan_devices l cards
        end
      else scan_devices l cards
  end.

Definition set_is_default (b : bool) (card : CardData) : CardData :=
  {| dev := dev card; name := name card; name_allocated := name_allocated card;
     env := env card; is_default := b |}.

Definition get_drm_cards (data : ControlData) (devices : list GUdevDevice)
  : list CardData :=
  let cards := [] in
  let cards := if add_fake_cards data then add_fake_intel_card cards else cards in
  let cards := scan_devices devices cards in
  let cards := if add_fake_cards data then add_fake_trident_card cards else cards in
  (* Make sure the only card is the default *)
  if Nat.eqb (length cards) 1 then alter (set_is_default true) 0 cards
  else cards.

(** ** The bus: build_gpus_variant and send_dbus_event (lines 79-134) *)

Record GpuVariant : Type := MkGpuVariant {
  Name : string;
  Environment : list string;
  Default : bool
}.

(** One emitted [PropertiesChanged] signal. *)
Record PropertiesChanged : Type := MkPropertiesChanged {
  on_connection : GDBusConnection;
  object_path : string;
  interface_name : string;
  HasDualGpu : bool;
  NumGPUs : nat;
  GPUs : list GpuVariant;
  invalidated : list string
}.

Definition CONTROL_PROXY_DBUS_NAME : string := "net.hadess.SwitcherooControl".
Definition CONTROL_PROXY_DBUS_PATH : string := "/net/hadess/SwitcherooControl".
Definition CONTROL_PROXY_IFACE_NAME : string := CONTROL_PROXY_DBUS_NAME.

Definition build_gpus_variant (data : ControlData) : list GpuVariant :=
  map (fun card => {| Name := name card;
                      Environment := env card;
                      Default := is_default card |}) (cards data).

(** The process state and everything put on the bus so far.  [crashed]
    is set once the process has aborted; [ctl] is then the state it died
    in. *)
Record World : Type := MkWorld {
  ctl : ControlData;
  emitted : list PropertiesChanged;
  crashed : bool
}.

Definition send_dbus_event (w : World) : World :=
  let data := ctl w in
  match connection data with
  | None => w   (* "Not sending D-Bus event, D-Bus not ready" *)
  | Some conn =>
      {| ctl := data;
         emitted := emitted w ++
           [ {| on_connection := conn;
                object_path := CONTROL_PROXY_DBUS_PATH;
                interface_name := CONTROL_PROXY_IFACE_NAME;
                HasDualGpu := (2 <=? num_gpus data)%nat;
                NumGPUs := num_gpus data;
                GPUs := build_gpus_variant data;
                invalidated := [] |} ];
         crashed := crashed w |}
  end.

(** ** The callbacks (lines 175-202 and 414-449) *)

Definition set_snapshot (data : ControlData) (new_cards : list CardData)
  : ControlData :=
  {| connection := connection data;
     init_done := init_done data;
     add_fake_cards := add_fake_cards data;
     num_gpus := length new_cards;
     cards := new_cards |}.

(** free_card_data (lines 50-59), the element destructor [get_drm_cards]
    installs at line 380.  [true]: the call returns.  [false]: [g_free] is
    handed a string literal, the allocator rejects the pointer and the
    process aborts.  ([g_object_unref] of the [NULL] [dev] of a synthetic
    card only logs a warning.) *)
Definition free_card_data (data : CardData) : bool := name_allocated data.

(** [g_ptr_array_free (array, TRUE)] on an array of cards: the destructor
    runs on each element in turn. *)
Definition g_ptr_array_free (array : list CardData) : bool :=
  forallb free_card_data array.

(** The process dies where it is. *)
Definition abort (w : World) : World :=
  {| ctl := ctl w; emitted := emitted w; crashed := true |}.

Definition uevent_cb (devices : list GUdevDevice) (w : World) : World :=
  let data := ctl w in
  let new_cards := get_drm_cards data devices in
  let num_gpus' := length new_cards in
  if negb (Nat.eqb num_gpus' (num_gpus data)) then
    if g_ptr_array_free (cards data) then                 (* line 429 *)
      send_dbus_event {| ctl := set_snapshot data new_cards;
                         emitted := emitted w;
                         crashed := crashed w |}
    else abort w
  else
    if g_ptr_array_free new_cards then w                  (* line 434 *)
    else abort w.

Definition get_num_gpus (devices : list GUdevDevice) (data : ControlData)
  : ControlData :=
  set_snapshot data (get_drm_cards data devices).

Definition bus_acquired_handler (conn : GDBusConnection) (w : World) : World :=
  let data := ctl w in
  {| ctl := {| connection := Some conn;
               init_done := init_done data;
               add_fake_cards := add_fake_cards data;
               num_gpus := num_gpus data;
               cards := cards data |};
     emitted := emitted w;
     crashed := crashed w |}.

Definition name_acquired_handler (w : World) : World :=
  if init_done (ctl w) then send_dbus_event w else w.

(** ** main (lines 451-495) up to the main loop *)

(** [g_new0] *)
Definition new_control_data : ControlData :=
  {| connection := None; init_done := false; add_fake_cards := false;
     num_gpus := 0; cards := [] |}.

Definition main_startup (fake : bool) (devices : list GUdevDevice) : World :=
  let data := {| connection := connection new_control_data;
                 init_done := init_done new_control_data;
                 add_fake_cards := fake;
                 num_gpus := num_gpus new_control_data;
                 cards := cards new_control_data |} in
  let data := get_num_gpus devices data in
  (* setup_dbus only registers the handlers *)
  let data := {| connection := connection data;
                 init_done := true;
                 add_fake_cards := add_fake_cards data;
                 num_gpus := num_gpus data;
                 cards := cards data |} in
  let w := {| ctl := data; emitted := []; crashed := false |} in
  if is_null (connection data) then w else send_dbus_event w.

(** What the main loop dispatches. *)
Inductive Event : Type :=
| Uevent (devices : list GUdevDevice)
| BusAcquired (conn : GDBusConnection)
| NameAcquired.

(** A process that has aborted handles nothing more. *)
Definition dispatch (e : Event) (w : World) : World :=
  if crashed w then w
  else match e with
       | Uevent devices => uevent_cb devices w
       | BusAcquired conn => bus_acquired_handler conn w
       | NameAcquired => name_acquired_handler w
       end.

Definition main_loop_run (events : list Event) (w : World) : World :=
  fold_left (fun w e => dispatch e w) events w.

(** The values [handle_get_property] (lines 149-152) answers for the two
    scalar properties; [send_dbus_event] sends the same two expressions. *)
Definition get_HasDualGpu (data : ControlData) : bool := (2 <=? num_gpus data)%nat.

(** ** handle_get_property (lines 136-157) *)

(** The three shapes of value the daemon hands to D-Bus. *)
Inductive GVariant : Type :=
| GVariantBoolean (b : bool)
| GVariantUint32 (n : nat)
| GVariantGpus (gpus : list GpuVariant).

(** A function that opens with [g_assert]: it aborts the process or
    returns. *)
Inductive Asserted (A : Type) : Type :=
| AssertionFailed
| Returned (a : A).

#[global] Arguments AssertionFailed {A}.
#[global] Arguments Returned {A} a.

(** Only [property_name] and [user_data] are read; the answer [NULL] is
    [Returned None]. *)
Definition handle_get_property (data : ControlData) (property_name : option string)
  : Asserted (option GVariant) :=
  if is_null (connection data) then AssertionFailed
  else if g_strcmp0_is_0 property_name "HasDualGpu" then
    Returned (Some (GVariantBoolean (2 <=? num_gpus data)%nat))
  else if g_strcmp0_is_0 property_name "NumGPUs" then
    Returned (Some (GVariantUint32 (num_gpus data)))
  else if g_strcmp0_is_0 property_name "GPUs" then
    Returned (Some (GVariantGpus (build_gpus_variant data)))
  else Returned None.

(** ** What follows is used only to state and prove properties *)

(** A device's resolved environment is non-empty. *)
Definition has_environment (d : GUdevDevice) : bool :=
  match resolve_environment d with
  | [] => false
  | _ :: _ => true
  end.

(** The devices of a query answer that end up as cards. *)
Definition retained (d : GUdevDevice) : bool :=
  is_render_node d && has_environment d.

(** The card, if any, one loop iteration appends for [d]. *)
Definition card_of_device (d : GUdevDevice) : option CardData :=
  if is_render_node d then get_card_data d else None.

(** The parent's boot_vga attribute as seen from a card; the synthetic
    cards have no device, hence no parent. *)
Definition card_boot_vga (card : CardData) : bool :=
  g_udev_device_get_sysfs_attr_as_boolean
    (match dev card with
     | Some d => g_udev_device_get_parent d
     | None => None
     end) "boot_vga".

(** The same device with one property of its parent removed. *)
Definition without_parent_property (key : string) (d : GUdevDevice)
  : GUdevDevice :=
  {| device_file := device_file d;
     driver := driver d;
     properties := properties d;
     sysfs_boolean := sysfs_boolean d;
     parent :=
       match parent d with
       | Some p =>
           Some {| device_file := device_file p;
                   driver := driver p;
                   properties := delete key (properties p);
                   sysfs_boolean := sysfs_boolean p;
                   parent := parent p |}
       | None => None
       end |}.

(** A state the daemon can be in: startup followed by any events. *)
Definition reachable (w : World) : Prop :=
  exists fake devices events,
    w = main_loop_run events (main_startup fake devices).

(** A card is well formed when its environment is a non-empty sequence
    and, for a real card, is what [get_card_env] answers for its device. *)
Definition card_ok (card : CardData) : Prop :=
  env card <> [] /\
  forall d, dev card = Some d ->
    is_render_node d = true /\ get_card_env d = Some (env card).

Definition variant_ok (g : GpuVariant) : Prop := Environment g <> [].

Definition world_ok (w : World) : Prop :=
  num_gpus (ctl w) = length (cards (ctl w)) /\
  Forall card_ok (cards (ctl w)) /\
  Forall (fun s => Forall variant_ok (GPUs s)) (emitted w).

(** The cards before the "only card" fix-up of lines 405-409. *)
Definition collected_cards (data : ControlData) (devices : list GUdevDevice)
  : list CardData :=
  (if add_fake_cards data then [fake_intel_card] else []) ++
  omap card_of_device devices ++
  (if add_fake_cards data then [fake_trident_card] else []).

(** The signal [send_dbus_event] builds for a snapshot. *)
Definition change_signal (conn : GDBusConnection) (snapshot : list CardData)
  : PropertiesChanged :=
  {| on_connection := conn;
     object_path := "/net/hadess/SwitcherooControl";
     interface_name := "net.hadess.SwitcherooControl";
     HasDualGpu := (2 <=? length snapshot)%nat;
     NumGPUs := length snapshot;
     GPUs := map (fun card => {| Name := name card;
                                 Environment := env card;
                                 Default := is_default card |}) snapshot;
     invalidated := [] |}.

(** Pairs written back as the flat sequence D-Bus carries. *)
Definition env_flatten (pairs : list (string * string)) : list string :=
  flat_map (fun kv => [fst kv; snd kv]) pairs.

(** The same device with one property of its parent set. *)
Definition with_parent_property (key value : string) (d : GUdevDevice)
  : GUdevDevice :=
  {| device_file := device_file d;
     driver := driver d;
     properties := properties d;
     sysfs_boolean := sysfs_boolean d;
     parent :=
       match parent d with
       | Some p =>
           Some {| device_file := device_file p;
                   driver := driver p;
                   properties := <[ key := value ]> (properties p);
                   sysfs_boolean := sysfs_boolean p;
                   parent := parent p |}
       | None => None
       end |}.

(** A card list some enumeration returns under the given --fake setting. *)
Definition enumerated (fake : bool) (cs : list CardData) : Prop :=
  exists data devices,
    add_fake_cards data = fake /\ cs = get_drm_cards data devices.

(** What holds of the state and of the bus between two callbacks. *)
Definition run_inv (fake : bool) (w : World) : Prop :=
  add_fake_cards (ctl w) = fake /\
  init_done (ctl w) = true /\
  num_gpus (ctl w) = length (cards (ctl w)) /\
  enumerated fake (cards (ctl w)) /\
  (connection (ctl w) = None -> emitted w = []) /\
  (forall s, last (emitted w) = Some s ->
     exists conn, s = change_signal conn (cards (ctl w))) /\
  Forall (fun s => exists conn cs,
            enumerated fake cs /\ s = change_signal conn cs) (emitted w).

(** The events that can put a signal on the bus. *)
Definition may_publish (e : Event) : bool :=
  match e with
  | Uevent _ => true
  | BusAcquired _ => false
  | NameAcquired => true
  end.

(** The environment of a card reads back as pairs with distinct keys and
    nothing left over. *)
Definition env_well_formed (e : list string) : Prop :=
  env_flatten (env_pairs e) = e /\ NoDup (map fst (env_pairs e)).

(** ** Machines for the examples *)

(** A stand-in for [info_cleanup] in the examples: it leaves the string
    alone. *)
Definition keep_string (s : string) : string := s.

Definition pci_card (drv : option string) (props : gmap string string)
  (boot_vga : bool) : GUdevDevice :=
  {| device_file := None;
     driver := drv;
     properties := props;
     sysfs_boolean := fun attr => String.eqb attr "boot_vga" && boot_vga;
     parent := None |}.

Definition drm_node (path : string) (props : gmap string string)
  (card : GUdevDevice) : GUdevDevice :=
  {| device_file := Some path;
     driver := None;
     properties := props;
     sysfs_boolean := fun _ => false;
     parent := Some card |}.

Definition intel_names : gmap string string :=
  {[ "ID_VENDOR_FROM_DATABASE" := "Intel Corporation";
     "ID_MODEL_FROM_DATABASE" := "HD Graphics 530" ]}.

Definition amd_names : gmap string string :=
  {[ "ID_VENDOR_FROM_DATABASE" := "Advanced Micro Devices, Inc.";
     "ID_MODEL_FROM_DATABASE" := "Lexa PRO" ]}.

(** An integrated GPU that is not the boot device. *)
Definition intel_render : GUdevDevice :=
  drm_node "/dev/dri/renderD128" {[ "ID_PATH_TAG" := "pci-0000_00_02_0" ]}
    (pci_card (Some "i915") intel_names false).

Definition amd_render : GUdevDevice :=
  drm_node "/dev/dri/renderD129" {[ "ID_PATH_TAG" := "pci-0000_01_00_0" ]}
    (pci_card (Some "amdgpu") amd_names false).

(** The display-control node of the same Intel GPU. *)
Definition intel_control : GUdevDevice :=
  drm_node "/dev/dri/card0" {[ "ID_PATH_TAG" := "pci-0000_00_02_0" ]}
    (pci_card (Some "i915") intel_names true).

Definition nvidia_render : GUdevDevice :=
  drm_node "/dev/dri/renderD129" {[ "ID_PATH_TAG" := "pci-0000_01_00_0" ]}
    (pci_card (Some "nvidia") ∅ false).

(** A render node without ID_PATH_TAG, on a generic driver. *)
Definition untagged_render : GUdevDevice :=
  drm_node "/dev/dri/renderD130" ∅ (pci_card (Some "vgem") ∅ false).

(** The hardware database gives an empty vendor and no model. *)
Definition blank_vendor_render : GUdevDevice :=
  drm_node "/dev/dri/renderD128" {[ "ID_PATH_TAG" := "pci-0000_00_02_0" ]}
    (pci_card (Some "i915") {[ "ID_VENDOR_FROM_DATABASE" := EmptyString ]} true).

(** The hardware database gives an empty model and no vendor. *)
Definition blank_model_render : GUdevDevice :=
  drm_node "/dev/dri/renderD128" {[ "ID_PATH_TAG" := "pci-0000_00_02_0" ]}
    (pci_card (Some "i915") {[ "ID_MODEL_FROM_DATABASE" := EmptyString ]} false).

(** The override vendor is set but empty. *)
Definition empty_override_render : GUdevDevice :=
  drm_node "/dev/dri/renderD128" {[ "ID_PATH_TAG" := "pci-0000_00_02_0" ]}
    (pci_card (Some "i915")
       (<[ "SWITCHEROO_CONTROL_VENDOR_NAME" := EmptyString ]> intel_names) true).

(** The override vendor is set to a name of its own. *)
Definition override_render : GUdevDevice :=
  drm_node "/dev/dri/renderD128" {[ "ID_PATH_TAG" := "pci-0000_00_02_0" ]}
    (pci_card (Some "i915")
       (<[ "SWITCHEROO_CONTROL_VENDOR_NAME" := "Intel" ]> intel_names) true).

(** A render node that hangs off nothing. *)
Definition orphan_render : GUdevDevice :=
  {| device_file := Some "/dev/dri/renderD131";
     driver := None;
     properties := {[ "ID_PATH_TAG" := "platform-vgem" ]};
     sysfs_boolean := fun _ => false;
     parent := None |}.

(** [ControlData] as [main] has it before [get_num_gpus]. *)
Definition fresh_data (fake : bool) : ControlData :=
  {| connection := None; init_done := false; add_fake_cards := fake;
     num_gpus := 0; cards := [] |}.

Definition system_bus : GDBusConnection := {| bus_id := 1 |}.

(** ** Environment resolution *)

Lemma get_card_env_cases (d : GUdevDevice) :
  get_card_env d =
    if g_strcmp0_is_0 (g_udev_device_get_driver (g_udev_device_get_parent d)) "nvidia"
    then Some nvidia_env
    else match properties d !! "ID_PATH_TAG" with
         | Some id => Some [ "DRI_PRIME"; id ]
         | None => None
         end.
Proof.
  unfold get_card_env, g_udev_device_get_property.
  destruct (g_strcmp0_is_0 _ _); [reflexivity|].
  destruct (properties d !! "ID_PATH_TAG"); reflexivity.
Qed.

Lemma get_card_env_nonempty (d : GUdevDevice) (e : list string) :
  get_card_env d = Some e -> e <> [].
Proof.
  rewrite get_card_env_cases.
  destruct (g_strcmp0_is_0 _ _).
  - intros [= <-]. discriminate.
  - destruct (properties d !! "ID_PATH_TAG"); [|discriminate].
    intros [= <-]. discriminate.
Qed.

Lemma resolve_environment_nil (d : GUdevDevice) :
  resolve_environment d = [] <-> get_card_env d = None.
Proof.
  unfold resolve_environment. rewrite get_card_env_cases.
  destruct (g_strcmp0_is_0 _ _); cbn.
  - split; discriminate.
  - destruct (properties d !! "ID_PATH_TAG"); cbn; split; try discriminate; reflexivity.
Qed.

Lemma has_environment_get_card_env (d : GUdevDevice) :
  has_environment d = negb (is_null (get_card_env d)).
Proof.
  unfold has_environment.
  destruct (get_card_env d) as [e|] eqn:He.
  - destruct (resolve_environment d) eqn:Hr; [|reflexivity].
    apply resolve_environment_nil in Hr. congruence.
  - apply resolve_environment_nil in He. rewrite He. reflexivity.
Qed.

Lemma g_strcmp0_is_0_spec (a : option string) (b : string) :
  g_strcmp0_is_0 a b = true <-> a = Some b.
Proof.
  destruct a as [s|]; cbn.
  - rewrite String.eqb_eq. split; congruence.
  - split; discriminate.
Qed.

(** C3: a device whose parent is bound to the "nvidia" driver resolves to
    exactly the three pairs __GLX_VENDOR_LIBRARY_NAME=nvidia,
    __NV_PRIME_RENDER_OFFLOAD=1, __VK_LAYER_NV_optimus=NVIDIA_only, in
    that order, whatever properties (ID_PATH_TAG included) the device
    itself carries. *)
Theorem nvidia_environment (d : GUdevDevice) :
  g_udev_device_get_driver (g_udev_device_get_parent d) = Some "nvidia" ->
  resolve_environment d =
    [ ("__GLX_VENDOR_LIBRARY_NAME", "nvidia");
      ("__NV_PRIME_RENDER_OFFLOAD", "1");
      ("__VK_LAYER_NV_optimus", "NVIDIA_only") ] /\
  get_card_env d =
    Some [ "__GLX_VENDOR_LIBRARY_NAME"; "nvidia";
           "__NV_PRIME_RENDER_OFFLOAD"; "1";
           "__VK_LAYER_NV_optimus"; "NVIDIA_only" ].
Proof.
  intros Hdrv. unfold resolve_environment. rewrite get_card_env_cases.
  apply g_strcmp0_is_0_spec in Hdrv. rewrite Hdrv. split; reflexivity.
Qed.

(** ** Enumeration *)

Lemma scan_devices_app (devices : list GUdevDevice) (acc : list CardData) :
  scan_devices devices acc = acc ++ omap card_of_device devices.
Proof.
  revert acc.
  induction devices as [|d l IH]; intros acc; cbn.
  - symmetry. apply app_nil_r.
  - unfold card_of_device at 1.
    destruct (is_render_node d); [|apply IH].
    destruct (get_card_data d) as [card|]; [|apply IH].
    rewrite IH, <- app_assoc. reflexivity.
Qed.

Lemma card_of_device_retained (d : GUdevDevice) :
  is_null (card_of_device d) = negb (retained d).
Proof.
  unfold card_of_device, retained, get_card_data.
  rewrite has_environment_get_card_env.
  destruct (is_render_node d); [|reflexivity].
  destruct (get_card_env d); reflexivity.
Qed.

Lemma card_of_device_dev (d : GUdevDevice) (card : CardData) :
  card_of_device d = Some card -> dev card = Some d.
Proof.
  unfold card_of_device, get_card_data.
  destruct (is_render_node d); [|discriminate].
  destruct (get_card_env d); [|discriminate].
  intros [= <-]. reflexivity.
Qed.

Lemma real_cards_devices (devices : list GUdevDevice) :
  omap dev (omap card_of_device devices) = List.filter retained devices.
Proof.
  induction devices as [|d l IH]; [reflexivity|]. cbn.
  pose proof (card_of_device_retained d) as Hr.
  destruct (card_of_device d) as [card|] eqn:Hc; cbn in Hr.
  - symmetry in Hr. apply negb_false_iff in Hr. rewrite Hr. cbn.
    rewrite (card_of_device_dev _ _ Hc), IH. reflexivity.
  - symmetry in Hr. apply negb_true_iff in Hr. rewrite Hr. exact IH.
Qed.

Lemma real_cards_have_device (devices : list GUdevDevice) :
  Forall (fun card => is_Some (dev card)) (omap card_of_device devices).
Proof.
  induction devices as [|d l IH]; cbn; [constructor|].
  destruct (card_of_device d) as [card|] eqn:Hc; [|exact IH].
  constructor; [|exact IH].
  rewrite (card_of_device_dev _ _ Hc). eexists; reflexivity.
Qed.

Lemma real_cards_length (devices : list GUdevDevice) :
  length (omap card_of_device devices) = length (List.filter retained devices).
Proof.
  rewrite <- real_cards_devices.
  induction (real_cards_have_device devices) as [|card l [d Hd] _ IH];
    [reflexivity|].
  cbn. rewrite Hd. cbn. f_equal. exact IH.
Qed.

Lemma get_drm_cards_collected (data : ControlData) (devices : list GUdevDevice) :
  get_drm_cards data devices =
    if Nat.eqb (length (collected_cards data devices)) 1
    then alter (set_is_default true) 0 (collected_cards data devices)
    else collected_cards data devices.
Proof.
  unfold get_drm_cards, collected_cards,
    add_fake_intel_card, add_fake_trident_card.
  destruct (add_fake_cards data); rewrite scan_devices_app; cbn.
  - reflexivity.
  - rewrite app_nil_r. reflexivity.
Qed.

Lemma get_drm_cards_length (data : ControlData) (devices : list GUdevDevice) :
  length (get_drm_cards data devices) = length (collected_cards data devices).
Proof.
  rewrite get_drm_cards_collected.
  destruct (Nat.eqb _ 1); [apply length_alter|reflexivity].
Qed.

Lemma collected_cards_length (data : ControlData) (devices : list GUdevDevice) :
  length (collected_cards data devices) =
    (if add_fake_cards data then 2 else 0) + length (List.filter retained devices).
Proof.
  unfold collected_cards.
  rewrite !length_app, real_cards_length.
  destruct (add_fake_cards data); cbn; lia.
Qed.

Lemma alter_set_is_default_dev (cards : list CardData) :
  omap dev (alter (set_is_default true) 0 cards) = omap dev cards.
Proof. destruct cards as [|card l]; reflexivity. Qed.

(** C1 (amended): without the synthetic cards the count of the returned
    snapshot is the number of queried devices that are render nodes and
    resolve to a non-empty environment; with them it is that number plus
    two.  In both modes the devices behind the returned cards are exactly
    those devices, in query order, so a device with an empty environment
    is neither counted nor listed. *)
Theorem enumeration_count (data : ControlData) (devices : list GUdevDevice) :
  length (get_drm_cards data devices) =
    (if add_fake_cards data then 2 else 0) + length (List.filter retained devices) /\
  omap dev (get_drm_cards data devices) = List.filter retained devices /\
  num_gpus (get_num_gpus devices data) = length (get_drm_cards data devices).
Proof.
  split; [|split].
  - rewrite get_drm_cards_length. apply collected_cards_length.
  - rewrite get_drm_cards_collected.
    assert (omap dev (collected_cards data devices) = List.filter retained devices)
      as Hdev.
    { unfold collected_cards. rewrite !omap_app, real_cards_devices.
      destruct (add_fake_cards data); cbn; apply app_nil_r. }
    destruct (Nat.eqb _ 1); [rewrite alter_set_is_default_dev|]; exact Hdev.
  - reflexivity.
Qed.

(** ** The default flag *)

Lemma card_of_device_boot_vga (d : GUdevDevice) (card : CardData) :
  card_of_device d = Some card -> is_default card = card_boot_vga card.
Proof.
  unfold card_of_device, get_card_data.
  destruct (is_render_node d); [|discriminate].
  destruct (get_card_env d); [|discriminate].
  intros [= <-]. reflexivity.
Qed.

Lemma real_cards_boot_vga (devices : list GUdevDevice) :
  Forall (fun card => is_default card = card_boot_vga card)
    (omap card_of_device devices).
Proof.
  induction devices as [|d l IH]; cbn; [constructor|].
  destruct (card_of_device d) as [card|] eqn:Hc; [|exact IH].
  constructor; [|exact IH].
  exact (card_of_device_boot_vga _ _ Hc).
Qed.

Lemma collected_cards_boot_vga (data : ControlData) (devices : list GUdevDevice) :
  Forall (fun card => is_default card = card_boot_vga card)
    (collected_cards data devices).
Proof.
  unfold collected_cards.
  rewrite !Forall_app. split; [|split].
  - destruct (add_fake_cards data); repeat constructor.
  - apply real_cards_boot_vga.
  - destruct (add_fake_cards data); repeat constructor.
Qed.

(** The fix-up of lines 405-409 seen from the returned list: a list of
    exactly one card has that card as the default whatever boot_vga says;
    for any other length every card's flag is the boot_vga attribute of
    its device's parent. *)
Lemma only_card_is_default (data : ControlData) (devices : list GUdevDevice) :
  (length (get_drm_cards data devices) = 1 ->
   exists card,
     get_drm_cards data devices = [card] /\ is_default card = true) /\
  (length (get_drm_cards data devices) <> 1 ->
   Forall (fun card => is_default card = card_boot_vga card)
     (get_drm_cards data devices)).
Proof.
  rewrite get_drm_cards_length, get_drm_cards_collected.
  split; intros Hlen.
  - rewrite Hlen. cbn.
    destruct (collected_cards data devices) as [|card [|? ?]];
      try discriminate.
    eexists. split; reflexivity.
  - apply Nat.eqb_neq in Hlen. rewrite Hlen.
    apply collected_cards_boot_vga.
Qed.

Lemma get_drm_cards_devices (data : ControlData) (devices : list GUdevDevice) :
  omap dev (get_drm_cards data devices) = List.filter retained devices.
Proof.
  rewrite get_drm_cards_collected.
  assert (omap dev (collected_cards data devices) = List.filter retained devices)
    as Hdev.
  { unfold collected_cards. rewrite !omap_app, real_cards_devices.
    destruct (add_fake_cards data); cbn; apply app_nil_r. }
  destruct (Nat.eqb _ 1); [rewrite alter_set_is_default_dev|]; exact Hdev.
Qed.

(** C5 (amended): the flag is forced when the returned card list has
    length one, and the two synthetic cards count.  Without --fake, an
    enumeration that retains exactly one device returns one card, for that
    device, and it is the default whatever boot_vga says.  With --fake, or
    with any other number of retained devices, every returned card's flag
    is the boot_vga attribute of its device's parent (FALSE for a card
    without device). *)
Theorem only_retained_device_is_default (data : ControlData)
  (devices : list GUdevDevice) :
  (add_fake_cards data = false ->
   forall d, List.filter retained devices = [d] ->
   exists card,
     get_drm_cards data devices = [card] /\
     dev card = Some d /\
     is_default card = true) /\
  (add_fake_cards data = true \/ length (List.filter retained devices) <> 1 ->
   Forall (fun card => is_default card = card_boot_vga card)
     (get_drm_cards data devices)).
Proof.
  pose proof (get_drm_cards_length data devices) as Hlen.
  rewrite collected_cards_length in Hlen.
  split.
  - intros Hfake d Hone. rewrite Hfake, Hone in Hlen. cbn in Hlen.
    destruct (proj1 (only_card_is_default data devices) Hlen)
      as (card & Hcards & Hdefault).
    exists card. split; [exact Hcards|]. split; [|exact Hdefault].
    pose proof (get_drm_cards_devices data devices) as Hdev.
    rewrite Hcards, Hone in Hdev. cbn in Hdev.
    destruct (dev card); [congruence|discriminate].
  - intros Hother. apply (proj2 (only_card_is_default data devices)).
    rewrite Hlen.
    destruct (add_fake_cards data) eqn:Hfake; destruct Hother as [Hset|Hne];
      cbn; try congruence; lia.
Qed.

(** ** Synthetic cards *)

Lemma fake_mode_cards (data : ControlData) (devices : list GUdevDevice) :
  add_fake_cards data = true ->
  get_drm_cards data devices =
    fake_intel_card :: omap card_of_device devices ++ [fake_trident_card].
Proof.
  intros Hfake.
  rewrite get_drm_cards_collected.
  pose proof (collected_cards_length data devices) as Hlen.
  unfold collected_cards in *. rewrite Hfake in *. cbn in *.
  destruct (length _) as [|[|n]] eqn:E; try lia; reflexivity.
Qed.


(** ** The snapshot invariant *)

Lemma card_of_device_ok (d : GUdevDevice) (card : CardData) :
  card_of_device d = Some card -> card_ok card.
Proof.
  unfold card_of_device, get_card_data.
  destruct (is_render_node d) eqn:Hrender; [|discriminate].
  destruct (get_card_env d) as [e|] eqn:He; [|discriminate].
  intros [= <-]. split; cbn.
  - exact (get_card_env_nonempty _ _ He).
  - intros d' [= <-]. split; assumption.
Qed.

Lemma fake_cards_ok : card_ok fake_intel_card /\ card_ok fake_trident_card.
Proof. split; (split; cbn; [discriminate|intros d; discriminate]). Qed.

Lemma get_drm_cards_ok (data : ControlData) (devices : list GUdevDevice) :
  Forall card_ok (get_drm_cards data devices).
Proof.
  assert (Forall card_ok (collected_cards data devices)) as Hall.
  { unfold collected_cards. rewrite !Forall_app.
    destruct fake_cards_ok as [Hintel Htrident].
    split; [|split].
    - destruct (add_fake_cards data); auto.
    - induction devices as [|d l IH]; cbn; [constructor|].
      destruct (card_of_device d) as [card|] eqn:Hc; [|exact IH].
      constructor; [exact (card_of_device_ok _ _ Hc)|exact IH].
    - destruct (add_fake_cards data); auto. }
  rewrite get_drm_cards_collected.
  destruct (Nat.eqb _ 1); [|exact Hall].
  apply Forall_alter; [exact Hall|].
  intros card _ Hok. exact Hok.
Qed.

Lemma build_gpus_variant_ok (data : ControlData) :
  Forall card_ok (cards data) -> Forall variant_ok (build_gpus_variant data).
Proof.
  unfold build_gpus_variant. intros Hall.
  induction Hall as [|card l [Henv _] _ IH]; cbn; constructor; assumption.
Qed.

Lemma send_dbus_event_ok (w : World) : world_ok w -> world_ok (send_dbus_event w).
Proof.
  intros (Hnum & Hcards & Hsig). unfold send_dbus_event.
  destruct (connection (ctl w)) as [conn|]; [|repeat split; assumption].
  repeat split; cbn; try assumption.
  apply Forall_app. split; [assumption|].
  constructor; [|constructor]. cbn.
  apply build_gpus_variant_ok. assumption.
Qed.

Lemma uevent_cb_ok (devices : list GUdevDevice) (w : World) :
  world_ok w -> world_ok (uevent_cb devices w).
Proof.
  intros Hw. unfold uevent_cb.
  destruct (negb _); destruct (g_ptr_array_free _); try exact Hw.
  apply send_dbus_event_ok.
  destruct Hw as (_ & _ & Hsig).
  repeat split; cbn; [apply get_drm_cards_ok|exact Hsig].
Qed.

Lemma dispatch_ok (e : Event) (w : World) : world_ok w -> world_ok (dispatch e w).
Proof.
  intros Hw. unfold dispatch.
  destruct (crashed w); [exact Hw|].
  destruct e as [devices|conn|]; cbn.
  - apply uevent_cb_ok. exact Hw.
  - exact Hw.
  - unfold name_acquired_handler.
    destruct (init_done (ctl w)); [apply send_dbus_event_ok|]; exact Hw.
Qed.

Lemma main_startup_ok (fake : bool) (devices : list GUdevDevice) :
  world_ok (main_startup fake devices).
Proof.
  unfold main_startup. cbn.
  repeat split; cbn; [apply get_drm_cards_ok|constructor].
Qed.

Lemma main_loop_run_ok (events : list Event) (w : World) :
  world_ok w -> world_ok (main_loop_run events w).
Proof.
  unfold main_loop_run. revert w.
  induction events as [|e l IH]; intros w Hw; cbn; [exact Hw|].
  apply IH, dispatch_ok, Hw.
Qed.

Lemma reachable_ok (w : World) : reachable w -> world_ok w.
Proof.
  intros (fake & devices & events & ->).
  apply main_loop_run_ok, main_startup_ok.
Qed.

(** C4: a device whose parent is not bound to "nvidia" resolves to the
    single pair DRI_PRIME=<ID_PATH_TAG> when it has that property and to
    nothing when it has not; in the latter case no card of any snapshot
    the daemon holds stands for it.  Every card of every such snapshot,
    and of every signal sent, has a non-empty environment. *)
Theorem generic_environment (d : GUdevDevice) :
  g_strcmp0_is_0 (g_udev_device_get_driver (g_udev_device_get_parent d)) "nvidia"
    = false ->
  (forall id, g_udev_device_get_property (Some d) "ID_PATH_TAG" = Some id ->
     resolve_environment d = [ ("DRI_PRIME", id) ]) /\
  (g_udev_device_get_property (Some d) "ID_PATH_TAG" = None ->
     resolve_environment d = [] /\
     forall w, reachable w ->
       Forall (fun card => dev card <> Some d) (cards (ctl w))) /\
  (forall w, reachable w ->
     Forall (fun card => env card <> []) (cards (ctl w)) /\
     Forall (fun s => Forall (fun g => Environment g <> []) (GPUs s)) (emitted w)).
Proof.
  intros Hdrv.
  assert (get_card_env d =
            match properties d !! "ID_PATH_TAG" with
            | Some id => Some [ "DRI_PRIME"; id ]
            | None => None
            end) as Henv.
  { rewrite get_card_env_cases, Hdrv. reflexivity. }
  unfold resolve_environment, g_udev_device_get_property.
  split; [|split].
  - intros id Hid. rewrite Henv, Hid. reflexivity.
  - intros Hid. rewrite Henv, Hid. split; [reflexivity|].
    intros w Hw. apply reachable_ok in Hw. destruct Hw as (_ & Hcards & _).
    eapply Forall_impl; [exact Hcards|].
    intros card [_ Hdev] Heq.
    destruct (Hdev _ Heq) as [_ Hsome]. rewrite Henv, Hid in Hsome.
    discriminate.
  - intros w Hw. apply reachable_ok in Hw. destruct Hw as (_ & Hcards & Hsig).
    split.
    + eapply Forall_impl; [exact Hcards|]. intros card [Hne _]. exact Hne.
    + exact Hsig.
Qed.

(** ** Publication *)

Lemma send_dbus_event_connected (w : World) (conn : GDBusConnection) :
  connection (ctl w) = Some conn ->
  num_gpus (ctl w) = length (cards (ctl w)) ->
  send_dbus_event w =
    {| ctl := ctl w;
       emitted := emitted w ++ [change_signal conn (cards (ctl w))];
       crashed := crashed w |}.
Proof.
  intros Hconn Hnum. unfold send_dbus_event, change_signal, build_gpus_variant.
  rewrite Hconn, Hnum. reflexivity.
Qed.

Lemma send_dbus_event_ctl (w : World) : ctl (send_dbus_event w) = ctl w.
Proof. unfold send_dbus_event. destruct (connection (ctl w)); reflexivity. Qed.

(** C9: without a connection [send_dbus_event] changes nothing and sends
    nothing; whenever it does send, a connection is there and the signal
    goes out on it; and no callback other than the bus acquisition sends
    anything, or gains a connection, while there is none. *)
Theorem publication_needs_connection (w : World) :
  (connection (ctl w) = None -> send_dbus_event w = w) /\
  (emitted (send_dbus_event w) <> emitted w ->
     exists conn s,
       connection (ctl w) = Some conn /\
       on_connection s = conn /\
       emitted (send_dbus_event w) = emitted w ++ [s]) /\
  (connection (ctl w) = None ->
     forall e, (forall conn, e <> BusAcquired conn) ->
       emitted (dispatch e w) = emitted w /\
       connection (ctl (dispatch e w)) = None).
Proof.
  split; [|split].
  - intros Hconn. unfold send_dbus_event. rewrite Hconn. reflexivity.
  - unfold send_dbus_event.
    destruct (connection (ctl w)) as [conn|]; [|intros H; destruct H; reflexivity].
    intros _. eexists conn, _.
    split; [reflexivity|]. split; [|reflexivity]. reflexivity.
  - intros Hconn e Hother. unfold dispatch.
    destruct (crashed w); [split; [reflexivity|exact Hconn]|].
    destruct e as [devices|conn|]; cbn.
    + unfold uevent_cb.
      destruct (negb _); destruct (g_ptr_array_free _);
        try (split; [reflexivity|exact Hconn]).
      unfold send_dbus_event. cbn. rewrite Hconn. cbn. split; [reflexivity|exact Hconn].
    + destruct (Hother conn). reflexivity.
    + unfold name_acquired_handler, send_dbus_event. rewrite Hconn.
      destruct (init_done (ctl w)); split; (reflexivity || exact Hconn).
Qed.

(** ** Names *)

(** C6: the name is the fallback literal when both the vendor and the
    product are missing, the one that is there (as it is, not run through
    the cleanup) when exactly one is, and the cleanup of
    "<vendor> <product>" when both are; [get_card_name] applies this to
    the two strings it looked up.  The result is a string in every case:
    there is no [NULL] or error answer. *)
Theorem derive_name_cases :
  name_of_vendor_product None None = "Unknown Graphics Controller" /\
  (forall v, name_of_vendor_product (Some v) None = v) /\
  (forall p, name_of_vendor_product None (Some p) = p) /\
  (forall v p,
     name_of_vendor_product (Some v) (Some p) =
       info_cleanup (String.append v (String.append " " p))) /\
  (forall d,
     get_card_name d =
       name_of_vendor_product
         (card_vendor (g_udev_device_get_parent d))
         (card_product (g_udev_device_get_parent d))).
Proof. repeat split. Qed.

Lemma without_parent_property_lookup (key other : string) (d : GUdevDevice) :
  g_udev_device_get_property
    (g_udev_device_get_parent (without_parent_property key d)) other =
  if String.eqb key other then None
  else g_udev_device_get_property (g_udev_device_get_parent d) other.
Proof.
  unfold without_parent_property, g_udev_device_get_parent,
    g_udev_device_get_property. cbn.
  destruct (parent d) as [p|]; cbn.
  - destruct (String.eqb_spec key other) as [->|Hne].
    + apply lookup_delete_eq.
    + apply lookup_delete_ne. exact Hne.
  - destruct (String.eqb key other); reflexivity.
Qed.

(** C10: an override property of the parent that is set to the empty
    string changes nothing compared with the same parent without that
    property, for the vendor and for the product; whenever the override is
    missing or empty the value used is the database property exactly as
    looked up, an empty string included, and the name is built from it:
    it is the database vendor itself when there is no product, the
    cleanup of "<database vendor> <product>" when there is one, and the
    same with the roles swapped. *)
Theorem empty_override_is_absent (d : GUdevDevice) :
  let parent := g_udev_device_get_parent d in
  (g_udev_device_get_property parent "SWITCHEROO_CONTROL_VENDOR_NAME" = Some EmptyString ->
     get_card_name d =
       get_card_name (without_parent_property "SWITCHEROO_CONTROL_VENDOR_NAME" d)) /\
  (g_udev_device_get_property parent "SWITCHEROO_CONTROL_PRODUCT_NAME" = Some EmptyString ->
     get_card_name d =
       get_card_name (without_parent_property "SWITCHEROO_CONTROL_PRODUCT_NAME" d)) /\
  (null_or_empty
     (g_udev_device_get_property parent "SWITCHEROO_CONTROL_VENDOR_NAME") = true ->
     card_vendor parent =
       g_udev_device_get_property parent "ID_VENDOR_FROM_DATABASE") /\
  (null_or_empty
     (g_udev_device_get_property parent "SWITCHEROO_CONTROL_PRODUCT_NAME") = true ->
     card_product parent =
       g_udev_device_get_property parent "ID_MODEL_FROM_DATABASE") /\
  (null_or_empty
     (g_udev_device_get_property parent "SWITCHEROO_CONTROL_VENDOR_NAME") = true ->
     get_card_name d =
       match g_udev_device_get_property parent "ID_VENDOR_FROM_DATABASE",
             card_product parent with
       | None, None => "Unknown Graphics Controller"
       | Some v, None => v
       | None, Some p => p
       | Some v, Some p => info_cleanup (String.append v (String.append " " p))
       end) /\
  (null_or_empty
     (g_udev_device_get_property parent "SWITCHEROO_CONTROL_PRODUCT_NAME") = true ->
     get_card_name d =
       match card_vendor parent,
             g_udev_device_get_property parent "ID_MODEL_FROM_DATABASE" with
       | None, None => "Unknown Graphics Controller"
       | Some v, None => v
       | None, Some p => p
       | Some v, Some p => info_cleanup (String.append v (String.append " " p))
       end) /\
  (null_or_empty
     (g_udev_device_get_property parent "SWITCHEROO_CONTROL_VENDOR_NAME") = true ->
   null_or_empty
     (g_udev_device_get_property parent "SWITCHEROO_CONTROL_PRODUCT_NAME") = true ->
     get_card_name d =
       match g_udev_device_get_property parent "ID_VENDOR_FROM_DATABASE",
             g_udev_device_get_property parent "ID_MODEL_FROM_DATABASE" with
       | None, None => "Unknown Graphics Controller"
       | Some v, None => v
       | None, Some p => p
       | Some v, Some p => info_cleanup (String.append v (String.append " " p))
       end).
Proof.
  cbv zeta. split_and!.
  - intros Hempty. unfold get_card_name, card_vendor, card_product.
    rewrite !without_parent_property_lookup, Hempty. reflexivity.
  - intros Hempty. unfold get_card_name, card_vendor, card_product.
    rewrite !without_parent_property_lookup, Hempty. reflexivity.
  - intros Hempty. unfold card_vendor. rewrite Hempty. reflexivity.
  - intros Hempty. unfold card_product. rewrite Hempty. reflexivity.
  - intros Hempty. unfold get_card_name, card_vendor at 1. rewrite Hempty.
    reflexivity.
  - intros Hempty. unfold get_card_name, card_product at 1. rewrite Hempty.
    reflexivity.
  - intros Hvendor Hproduct. unfold get_card_name, card_vendor, card_product.
    rewrite Hvendor, Hproduct. reflexivity.
Qed.

(** ** Beyond single callbacks: whole runs of the daemon *)

Lemma get_drm_cards_flag (data data' : ControlData) (devices : list GUdevDevice) :
  add_fake_cards data = add_fake_cards data' ->
  get_drm_cards data devices = get_drm_cards data' devices.
Proof. unfold get_drm_cards. intros ->. reflexivity. Qed.

(** What holds of the two synthetic cards and of every card built from a
    device, and does not look at the default flag, holds of all cards of
    an enumeration. *)
Lemma get_drm_cards_Forall (P : CardData -> Prop) :
  P fake_intel_card -> P fake_trident_card ->
  (forall d card, card_of_device d = Some card -> P card) ->
  (forall card, P card -> P (set_is_default true card)) ->
  forall data devices, Forall P (get_drm_cards data devices).
Proof.
  intros Hintel Htrident Hreal Hflag data devices.
  assert (Forall P (collected_cards data devices)) as Hall.
  { unfold collected_cards. rewrite !Forall_app. split; [|split].
    - destruct (add_fake_cards data); auto.
    - induction devices as [|d l IH]; cbn; [constructor|].
      destruct (card_of_device d) as [card|] eqn:Hc; [|exact IH].
      constructor; [exact (Hreal _ _ Hc)|exact IH].
    - destruct (add_fake_cards data); auto. }
  rewrite get_drm_cards_collected.
  destruct (Nat.eqb _ 1); [|exact Hall].
  apply Forall_alter; [exact Hall|]. intros card _. apply Hflag.
Qed.

Lemma get_drm_cards_single (data : ControlData) (devices : list GUdevDevice)
  (card : CardData) :
  get_drm_cards data devices = [card] -> is_default card = true.
Proof.
  rewrite get_drm_cards_collected.
  destruct (Nat.eqb _ 1) eqn:Hlen.
  - destruct (collected_cards data devices) as [|c [|? ?]]; try discriminate.
    cbn. intros [= <-]. reflexivity.
  - intros Heq. rewrite Heq in Hlen. discriminate.
Qed.

Lemma main_loop_run_snoc (events : list Event) (e : Event) (w : World) :
  main_loop_run (events ++ [e]) w = dispatch e (main_loop_run events w).
Proof. unfold main_loop_run. rewrite fold_left_app. reflexivity. Qed.

Lemma send_dbus_event_inv (fake : bool) (w : World) :
  add_fake_cards (ctl w) = fake ->
  init_done (ctl w) = true ->
  num_gpus (ctl w) = length (cards (ctl w)) ->
  enumerated fake (cards (ctl w)) ->
  (connection (ctl w) = None -> emitted w = []) ->
  Forall (fun s => exists conn cs,
            enumerated fake cs /\ s = change_signal conn cs) (emitted w) ->
  run_inv fake (send_dbus_event w).
Proof.
  intros Hfake Hinit Hnum Henum Hquiet Hlog.
  destruct (connection (ctl w)) as [conn|] eqn:Hconn.
  - rewrite (send_dbus_event_connected _ _ Hconn Hnum).
    unfold run_inv. split_and!; cbn; try assumption.
    + intros Hnone. congruence.
    + intros s. rewrite last_snoc. intros [= <-]. exists conn. reflexivity.
    + apply Forall_app. split; [assumption|].
      constructor; [|constructor]. exists conn, (cards (ctl w)). auto.
  - unfold send_dbus_event. rewrite Hconn.
    unfold run_inv. split_and!; try assumption.
    + intros _. apply Hquiet. reflexivity.
    + intros s Hs. rewrite (Hquiet eq_refl) in Hs. discriminate Hs.
Qed.

Lemma main_startup_inv (fake : bool) (devices : list GUdevDevice) :
  run_inv fake (main_startup fake devices).
Proof.
  unfold main_startup, run_inv. cbn. split_and!; try reflexivity.
  - eexists _, devices. split; [|reflexivity]. reflexivity.
  - discriminate.
  - constructor.
Qed.

Lemma dispatch_inv (fake : bool) (e : Event) (w : World) :
  run_inv fake w -> run_inv fake (dispatch e w).
Proof.
  intros Hw. unfold dispatch.
  destruct (crashed w); [exact Hw|].
  destruct Hw as (Hfake & Hinit & Hnum & Henum & Hquiet & Hlast & Hlog).
  destruct e as [devices|conn|]; cbn.
  - unfold uevent_cb.
    destruct (negb _); destruct (g_ptr_array_free _);
      try (unfold run_inv; split_and!; assumption).
    apply send_dbus_event_inv; cbn; try assumption; [reflexivity|].
    exists (ctl w), devices. auto.
  - unfold run_inv. split_and!; cbn; try assumption. discriminate.
  - unfold name_acquired_handler. rewrite Hinit.
    apply send_dbus_event_inv; assumption.
Qed.

Lemma main_loop_run_inv (fake : bool) (events : list Event) (w : World) :
  run_inv fake w -> run_inv fake (main_loop_run events w).
Proof.
  intros Hw. induction events as [|e events IH] using rev_ind; [exact Hw|].
  rewrite main_loop_run_snoc. apply dispatch_inv, IH.
Qed.

Lemma daemon_inv (fake : bool) (devices : list GUdevDevice) (events : list Event) :
  run_inv fake (main_loop_run events (main_startup fake devices)).
Proof. apply main_loop_run_inv, main_startup_inv. Qed.

Lemma change_signal_consistent (conn : GDBusConnection) (cs : list CardData) :
  NumGPUs (change_signal conn cs) = length (GPUs (change_signal conn cs)) /\
  HasDualGpu (change_signal conn cs) =
    (2 <=? length (GPUs (change_signal conn cs)))%nat.
Proof. cbn. rewrite length_map. split; reflexivity. Qed.

(** X1: once a signal has been sent, reading HasDualGpu, NumGPUs or GPUs
    answers exactly what the most recent signal carried. *)
Theorem reads_agree_with_last_signal (fake : bool) (devices : list GUdevDevice)
  (events : list Event) (s : PropertiesChanged) :
  last (emitted (main_loop_run events (main_startup fake devices))) = Some s ->
  handle_get_property (ctl (main_loop_run events (main_startup fake devices)))
    (Some "HasDualGpu") = Returned (Some (GVariantBoolean (HasDualGpu s))) /\
  handle_get_property (ctl (main_loop_run events (main_startup fake devices)))
    (Some "NumGPUs") = Returned (Some (GVariantUint32 (NumGPUs s))) /\
  handle_get_property (ctl (main_loop_run events (main_startup fake devices)))
    (Some "GPUs") = Returned (Some (GVariantGpus (GPUs s))).
Proof.
  pose proof (daemon_inv fake devices events) as Hinv.
  generalize dependent (main_loop_run events (main_startup fake devices)).
  intros w (_ & _ & Hnum & _ & Hquiet & Hlast & _) Hs.
  destruct (Hlast _ Hs) as [conn ->].
  unfold handle_get_property, build_gpus_variant.
  destruct (connection (ctl w)) as [c|] eqn:Hconn.
  - rewrite Hnum. cbn. repeat split.
  - rewrite (Hquiet eq_refl) in Hs. discriminate Hs.
Qed.

(** X2: in every state the stored count is the length of the stored card
    list, and every signal sent announces as NumGPUs the number of entries
    of its GPUs array and as HasDualGpu whether there are at least two. *)
Theorem counts_match_lists (fake : bool) (devices : list GUdevDevice)
  (events : list Event) :
  num_gpus (ctl (main_loop_run events (main_startup fake devices))) =
    length (cards (ctl (main_loop_run events (main_startup fake devices)))) /\
  Forall (fun s => NumGPUs s = length (GPUs s) /\
                   HasDualGpu s = (2 <=? length (GPUs s))%nat)
    (emitted (main_loop_run events (main_startup fake devices))).
Proof.
  destruct (daemon_inv fake devices events) as (_ & _ & Hnum & _ & _ & _ & Hlog).
  split; [exact Hnum|].
  eapply Forall_impl; [exact Hlog|].
  intros s (conn & cs & _ & ->). apply change_signal_consistent.
Qed.

Lemma enumerated_env_well_formed (fake : bool) (cs : list CardData) :
  enumerated fake cs -> Forall (fun card => env_well_formed (env card)) cs.
Proof.
  intros (data & devices & _ & ->).
  apply get_drm_cards_Forall.
  - split; [reflexivity|]. cbn. apply (bool_decide_unpack _). reflexivity.
  - split; [reflexivity|]. cbn. apply (bool_decide_unpack _). reflexivity.
  - intros d card. unfold card_of_device, get_card_data.
    destruct (is_render_node d); [|discriminate].
    rewrite get_card_env_cases.
    destruct (g_strcmp0_is_0 _ _).
    + intros [= <-]. split; [reflexivity|].
      cbn. apply (bool_decide_unpack _). reflexivity.
    + destruct (properties d !! "ID_PATH_TAG") as [id|]; [|discriminate].
      intros [= <-]. split; [reflexivity|].
      cbn. apply NoDup_singleton.
  - intros card Hok. exact Hok.
Qed.

(** X3: every environment the daemon stores or sends is a whole number of
    key/value pairs, written back unchanged by flattening the pairs, and
    names no variable twice. *)
Theorem published_environments_well_formed (fake : bool)
  (devices : list GUdevDevice) (events : list Event) :
  Forall (fun card => env_well_formed (env card))
    (cards (ctl (main_loop_run events (main_startup fake devices)))) /\
  Forall (fun s => Forall (fun g => env_well_formed (Environment g)) (GPUs s))
    (emitted (main_loop_run events (main_startup fake devices))).
Proof.
  destruct (daemon_inv fake devices events) as (_ & _ & _ & Henum & _ & _ & Hlog).
  split.
  - exact (enumerated_env_well_formed _ _ Henum).
  - eapply Forall_impl; [exact Hlog|].
    intros s (conn & cs & Hcs & ->). cbn.
    apply Forall_fmap.
    exact (enumerated_env_well_formed _ _ Hcs).
Qed.

(** X5: started with --fake, the daemon never holds fewer than two cards:
    in every state HasDualGpu reads true, the list opens with the
    synthetic Intel card and closes with the synthetic Trident card,
    neither is ever the default, and every signal sent says HasDualGpu. *)
Theorem fake_mode_always_dual (devices : list GUdevDevice) (events : list Event) :
  2 <= num_gpus (ctl (main_loop_run events (main_startup true devices))) /\
  get_HasDualGpu (ctl (main_loop_run events (main_startup true devices))) = true /\
  head (cards (ctl (main_loop_run events (main_startup true devices))))
    = Some fake_intel_card /\
  last (cards (ctl (main_loop_run events (main_startup true devices))))
    = Some fake_trident_card /\
  Forall (fun card => dev card = None -> is_default card = false)
    (cards (ctl (main_loop_run events (main_startup true devices)))) /\
  Forall (fun s => HasDualGpu s = true)
    (emitted (main_loop_run events (main_startup true devices))).
Proof.
  pose proof (daemon_inv true devices events) as Hinv.
  generalize dependent (main_loop_run events (main_startup true devices)).
  intros w (_ & _ & Hnum & Henum & _ & _ & Hlog).
  assert (forall cs, enumerated true cs ->
            exists real, cs = fake_intel_card :: real ++ [fake_trident_card] /\
                         Forall (fun card => is_Some (dev card)) real) as Hshape.
  { intros cs (data & devs & Hfake & ->).
    exists (omap card_of_device devs).
    split; [apply fake_mode_cards, Hfake|apply real_cards_have_device]. }
  destruct (Hshape _ Henum) as (real & Hcards & Hreal).
  unfold get_HasDualGpu. rewrite Hnum, Hcards.
  assert (2 <= length (fake_intel_card :: real ++ [fake_trident_card])) as Htwo.
  { cbn. rewrite length_app. cbn. lia. }
  split_and!.
  - exact Htwo.
  - apply Nat.leb_le. exact Htwo.
  - reflexivity.
  - change (fake_intel_card :: real ++ [fake_trident_card])
      with ((fake_intel_card :: real) ++ [fake_trident_card]).
    apply last_snoc.
  - constructor; [reflexivity|].
    apply Forall_app. split; [|repeat constructor].
    eapply Forall_impl; [exact Hreal|].
    intros card [d Hd] Hnone. congruence.
  - eapply Forall_impl; [exact Hlog|].
    intros s (conn & cs & Hcs & ->).
    destruct (Hshape _ Hcs) as (real' & -> & _).
    unfold change_signal, HasDualGpu. apply Nat.leb_le.
    cbn. rewrite length_app. cbn. lia.
Qed.

(** X6: from any state of a run, acquiring the bus and then the name
    sends exactly one signal, on the new connection, carrying the stored
    snapshot; the snapshot itself is left as it was. *)
Theorem initial_publication (fake : bool) (devices : list GUdevDevice)
  (events : list Event) (conn : GDBusConnection) :
  emitted (name_acquired_handler
             (bus_acquired_handler conn
                (main_loop_run events (main_startup fake devices)))) =
    emitted (main_loop_run events (main_startup fake devices)) ++
    [ change_signal conn
        (cards (ctl (main_loop_run events (main_startup fake devices)))) ] /\
  cards (ctl (name_acquired_handler
                (bus_acquired_handler conn
                   (main_loop_run events (main_startup fake devices))))) =
    cards (ctl (main_loop_run events (main_startup fake devices))).
Proof.
  pose proof (daemon_inv fake devices events) as Hinv.
  generalize dependent (main_loop_run events (main_startup fake devices)).
  intros w (_ & Hinit & Hnum & _).
  unfold name_acquired_handler.
  change (init_done (ctl (bus_acquired_handler conn w))) with (init_done (ctl w)).
  rewrite Hinit.
  rewrite (send_dbus_event_connected _ conn); [split; reflexivity|reflexivity|].
  exact Hnum.
Qed.

Lemma with_parent_property_lookup (key value other : string) (d : GUdevDevice) :
  key <> other ->
  g_udev_device_get_property
    (g_udev_device_get_parent (with_parent_property key value d)) other =
  g_udev_device_get_property (g_udev_device_get_parent d) other.
Proof.
  intros Hne.
  unfold with_parent_property, g_udev_device_get_parent,
    g_udev_device_get_property. cbn.
  destruct (parent d) as [p|]; cbn; [|reflexivity].
  apply lookup_insert_ne. exact Hne.
Qed.

Lemma without_parent_property_lookup_ne (key other : string) (d : GUdevDevice) :
  key <> other ->
  g_udev_device_get_property
    (g_udev_device_get_parent (without_parent_property key d)) other =
  g_udev_device_get_property (g_udev_device_get_parent d) other.
Proof.
  intros Hne. rewrite without_parent_property_lookup.
  destruct (String.eqb_spec key other) as [Heq|_]; [destruct (Hne Heq)|reflexivity].
Qed.

(** X7: when the parent carries a non-empty SWITCHEROO_CONTROL_VENDOR_NAME
    the vendor used is that override, and the card name is the same
    whatever ID_VENDOR_FROM_DATABASE holds or whether it is there at all;
    likewise for SWITCHEROO_CONTROL_PRODUCT_NAME and
    ID_MODEL_FROM_DATABASE. *)
Theorem override_wins (d : GUdevDevice) :
  let parent := g_udev_device_get_parent d in
  (null_or_empty
     (g_udev_device_get_property parent "SWITCHEROO_CONTROL_VENDOR_NAME") = false ->
   card_vendor parent =
     g_udev_device_get_property parent "SWITCHEROO_CONTROL_VENDOR_NAME" /\
   (forall value,
      get_card_name (with_parent_property "ID_VENDOR_FROM_DATABASE" value d) =
        get_card_name d) /\
   get_card_name (without_parent_property "ID_VENDOR_FROM_DATABASE" d) =
     get_card_name d) /\
  (null_or_empty
     (g_udev_device_get_property parent "SWITCHEROO_CONTROL_PRODUCT_NAME") = false ->
   card_product parent =
     g_udev_device_get_property parent "SWITCHEROO_CONTROL_PRODUCT_NAME" /\
   (forall value,
      get_card_name (with_parent_property "ID_MODEL_FROM_DATABASE" value d) =
        get_card_name d) /\
   get_card_name (without_parent_property "ID_MODEL_FROM_DATABASE" d) =
     get_card_name d).
Proof.
  cbv zeta. split; intros Hset; (split; [|split]).
  - unfold card_vendor. rewrite Hset. reflexivity.
  - intros value. unfold get_card_name, card_vendor, card_product.
    rewrite (with_parent_property_lookup _ _ "SWITCHEROO_CONTROL_VENDOR_NAME"),
      (with_parent_property_lookup _ _ "SWITCHEROO_CONTROL_PRODUCT_NAME"),
      (with_parent_property_lookup _ _ "ID_MODEL_FROM_DATABASE") by discriminate.
    rewrite Hset. reflexivity.
  - unfold get_card_name, card_vendor, card_product.
    rewrite (without_parent_property_lookup_ne _ "SWITCHEROO_CONTROL_VENDOR_NAME"),
      (without_parent_property_lookup_ne _ "SWITCHEROO_CONTROL_PRODUCT_NAME"),
      (without_parent_property_lookup_ne _ "ID_MODEL_FROM_DATABASE") by discriminate.
    rewrite Hset. reflexivity.
  - unfold card_product. rewrite Hset. reflexivity.
  - intros value. unfold get_card_name, card_vendor, card_product.
    rewrite (with_parent_property_lookup _ _ "SWITCHEROO_CONTROL_VENDOR_NAME"),
      (with_parent_property_lookup _ _ "SWITCHEROO_CONTROL_PRODUCT_NAME"),
      (with_parent_property_lookup _ _ "ID_VENDOR_FROM_DATABASE") by discriminate.
    rewrite Hset. reflexivity.
  - unfold get_card_name, card_vendor, card_product.
    rewrite (without_parent_property_lookup_ne _ "SWITCHEROO_CONTROL_VENDOR_NAME"),
      (without_parent_property_lookup_ne _ "SWITCHEROO_CONTROL_PRODUCT_NAME"),
      (without_parent_property_lookup_ne _ "ID_VENDOR_FROM_DATABASE") by discriminate.
    rewrite Hset. reflexivity.
Qed.

(** X8: a device without a parent is named by the fallback literal, is
    not a boot device, and gets its environment from its own ID_PATH_TAG
    alone. *)
Theorem parentless_device (d : GUdevDevice) :
  g_udev_device_get_parent d = None ->
  get_card_name d = "Unknown Graphics Controller" /\
  get_card_is_default d = false /\
  get_card_env d =
    match g_udev_device_get_property (Some d) "ID_PATH_TAG" with
    | Some id => Some [ "DRI_PRIME"; id ]
    | None => None
    end.
Proof.
  intros Hparent. split; [|split].
  - unfold get_card_name. rewrite Hparent. reflexivity.
  - unfold get_card_is_default. rewrite Hparent. reflexivity.
  - rewrite get_card_env_cases, Hparent. reflexivity.
Qed.

(** X9: read as a map from variable to value, the resolved environment
    binds DRI_PRIME to the device's ID_PATH_TAG when the parent's driver
    is not "nvidia" (and to nothing when there is no such tag), and never
    binds DRI_PRIME for an "nvidia" parent. *)
Theorem dri_prime_lookup (d : GUdevDevice) :
  (list_to_map (resolve_environment d) : gmap string string) !! "DRI_PRIME" =
    if g_strcmp0_is_0 (g_udev_device_get_driver (g_udev_device_get_parent d)) "nvidia"
    then None
    else g_udev_device_get_property (Some d) "ID_PATH_TAG".
Proof.
  unfold resolve_environment. rewrite get_card_env_cases.
  destruct (g_strcmp0_is_0 _ _).
  - reflexivity.
  - cbn. destruct (properties d !! "ID_PATH_TAG") as [id|]; cbn.
    + apply lookup_insert_eq.
    + reflexivity.
Qed.

(** X10: whenever the daemon holds exactly one card that card is the
    default, and every signal announcing exactly one GPU announces it as
    the default. *)
Theorem lone_gpu_is_default (fake : bool) (devices : list GUdevDevice)
  (events : list Event) :
  (forall card,
     cards (ctl (main_loop_run events (main_startup fake devices))) = [card] ->
     is_default card = true) /\
  Forall (fun s => forall g, GPUs s = [g] -> Default g = true)
    (emitted (main_loop_run events (main_startup fake devices))).
Proof.
  destruct (daemon_inv fake devices events) as (_ & _ & _ & Henum & _ & _ & Hlog).
  split.
  - intros card Hone.
    destruct Henum as (data & devs & _ & Hcards).
    rewrite Hcards in Hone. exact (get_drm_cards_single _ _ _ Hone).
  - eapply Forall_impl; [exact Hlog|].
    intros s (conn & cs & (data & devs & _ & ->) & ->) g. cbn.
    destruct (get_drm_cards data devs) as [|card [|? ?]] eqn:Hcs; try discriminate.
    cbn. intros [= <-]. cbn.
    exact (get_drm_cards_single _ _ _ Hcs).
Qed.

Lemma dispatch_keeps_connection (e : Event) (w : World) :
  is_Some (connection (ctl w)) -> is_Some (connection (ctl (dispatch e w))).
Proof.
  intros Hconn. unfold dispatch.
  destruct (crashed w); [exact Hconn|].
  destruct e as [devices|conn|]; cbn.
  - unfold uevent_cb.
    destruct (negb _); destruct (g_ptr_array_free _); try exact Hconn.
    rewrite send_dbus_event_ctl. exact Hconn.
  - eexists. reflexivity.
  - unfold name_acquired_handler.
    destruct (init_done (ctl w)); [rewrite send_dbus_event_ctl|]; exact Hconn.
Qed.

Lemma main_loop_run_keeps_connection (events : list Event) (w : World) :
  is_Some (connection (ctl w)) ->
  is_Some (connection (ctl (main_loop_run events w))).
Proof.
  intros Hconn. induction events as [|e events IH] using rev_ind; [exact Hconn|].
  rewrite main_loop_run_snoc. apply dispatch_keeps_connection, IH.
Qed.

(** X11: once a connection is stored no later callback removes it, so a
    property read never trips its assertion; a read of any name other than
    HasDualGpu, NumGPUs and GPUs (a missing name included) answers NULL. *)
Theorem property_reads_after_acquisition (events : list Event) (w : World)
  (property_name : option string) :
  is_Some (connection (ctl w)) ->
  handle_get_property (ctl (main_loop_run events w)) property_name
    <> AssertionFailed /\
  (g_strcmp0_is_0 property_name "HasDualGpu" = false ->
   g_strcmp0_is_0 property_name "NumGPUs" = false ->
   g_strcmp0_is_0 property_name "GPUs" = false ->
   handle_get_property (ctl (main_loop_run events w)) property_name
     = Returned None).
Proof.
  intros Hconn.
  destruct (main_loop_run_keeps_connection events w Hconn) as [conn Hlater].
  unfold handle_get_property. rewrite Hlater. cbn [is_null].
  split.
  - destruct (g_strcmp0_is_0 property_name "HasDualGpu"); [discriminate|].
    destruct (g_strcmp0_is_0 property_name "NumGPUs"); [discriminate|].
    destruct (g_strcmp0_is_0 property_name "GPUs"); discriminate.
  - intros -> -> ->. reflexivity.
Qed.

Lemma retained_cards_only (devices : list GUdevDevice) :
  omap card_of_device (List.filter retained devices) = omap card_of_device devices.
Proof.
  induction devices as [|d l IH]; [reflexivity|]. cbn.
  pose proof (card_of_device_retained d) as Hr.
  destruct (retained d); cbn.
  - rewrite IH. reflexivity.
  - destruct (card_of_device d); [discriminate|exact IH].
Qed.

(** X12: an enumeration looks at nothing but the --fake setting and the
    devices that are render nodes with an environment: dropping every
    other device from the query answer, or changing any other field of the
    state, gives the same cards. *)
Theorem enumeration_frame (data data' : ControlData) (devices : list GUdevDevice) :
  add_fake_cards data = add_fake_cards data' ->
  get_drm_cards data devices = get_drm_cards data' (List.filter retained devices).
Proof.
  intros Hfake.
  rewrite (get_drm_cards_flag data data') by exact Hfake.
  rewrite !get_drm_cards_collected. unfold collected_cards.
  rewrite retained_cards_only. reflexivity.
Qed.

Lemma dispatch_emits (e : Event) (w : World) :
  exists new,
    emitted (dispatch e w) = emitted w ++ new /\
    length new <= (if may_publish e then 1 else 0).
Proof.
  assert (forall w', exists new,
            emitted (send_dbus_event w') = emitted w' ++ new /\ length new <= 1)
    as Hsend.
  { intros w'. unfold send_dbus_event.
    destruct (connection (ctl w')).
    - eexists [_]. split; [reflexivity|]. cbn. lia.
    - exists []. split; [symmetry; apply app_nil_r|]. cbn. lia. }
  assert (exists new, emitted w = emitted w ++ new /\ length new <= 0) as Hnone.
  { exists []. split; [symmetry; apply app_nil_r|]. cbn. lia. }
  assert (forall k, exists new, emitted w = emitted w ++ new /\ length new <= k)
    as Hquiet.
  { intros k. destruct Hnone as (new & Heq & Hlen). exists new. split; [exact Heq|lia]. }
  unfold dispatch. destruct (crashed w); [apply Hquiet|].
  destruct e as [devices|conn|]; cbn.
  - unfold uevent_cb.
    destruct (negb _); destruct (g_ptr_array_free _); try apply Hquiet.
    apply (Hsend {| ctl := _; emitted := emitted w; crashed := _ |}).
  - exists []. split; [symmetry; apply app_nil_r|]. cbn. lia.
  - unfold name_acquired_handler. destruct (init_done (ctl w)).
    + apply Hsend.
    + exists []. split; [symmetry; apply app_nil_r|]. cbn. lia.
Qed.

(** X13: a run only ever adds to what is on the bus, and adds at most one
    signal for each uevent or name acquisition it handles; acquiring the
    bus sends nothing. *)
Theorem at_most_one_signal_per_event (events : list Event) (w : World) :
  emitted w `prefix_of` emitted (main_loop_run events w) /\
  length (emitted (main_loop_run events w)) <=
    length (emitted w) + length (List.filter may_publish events).
Proof.
  induction events as [|e events [IHpre IHlen]] using rev_ind.
  - split; [reflexivity|]. cbn. lia.
  - rewrite main_loop_run_snoc.
    destruct (dispatch_emits e (main_loop_run events w)) as (new & -> & Hnew).
    split.
    + apply prefix_app_r. exact IHpre.
    + rewrite List.filter_app, !length_app. cbn.
      destruct (may_publish e); cbn; lia.
Qed.

Lemma string_prefix_append (p s : string) :
  String.prefix p s = true <-> exists rest, s = String.append p rest.
Proof.
  revert s. induction p as [|c p IH]; intros [|c' s]; cbn.
  - split; [intros _; exists EmptyString; reflexivity|reflexivity].
  - split; [intros _; eexists; reflexivity|reflexivity].
  - split; [discriminate|intros [rest Hrest]; discriminate].
  - destruct (Ascii.ascii_dec c c') as [<-|Hne].
    + rewrite IH. split; intros [rest Hrest]; exists rest.
      * rewrite Hrest. reflexivity.
      * change (String c s = String c (p +:+ rest)) in Hrest. congruence.
    + split; [discriminate|]. intros [rest Hrest].
      change (String c' s = String c (p +:+ rest)) in Hrest. congruence.
Qed.

(** X14: a device is taken for a render node exactly when it has a device
    file whose path is "/dev/dri/render" followed by anything, the empty
    suffix included; a device without device file never is. *)
Theorem render_node_paths (d : GUdevDevice) :
  is_render_node d = true <->
  exists rest,
    g_udev_device_get_device_file d = Some (String.append "/dev/dri/render" rest).
Proof.
  unfold is_render_node, g_str_has_prefix.
  destruct (g_udev_device_get_device_file d) as [path|].
  - rewrite string_prefix_append.
    split; intros [rest Hrest]; exists rest; congruence.
  - split; [discriminate|]. intros [rest Hrest]. discriminate.
Qed.

(** X16: every card the daemon holds either stands for a render node and
    carries that device's name and environment as [get_card_name] and
    [get_card_env] give them, or has no device and carries the name and
    environment of one of the two synthetic cards. *)
Theorem cards_describe_devices (fake : bool) (devices : list GUdevDevice)
  (events : list Event) :
  Forall (fun card =>
            match dev card with
            | Some d =>
                is_render_node d = true /\
                name card = get_card_name d /\
                get_card_env d = Some (env card)
            | None =>
                (name card = name fake_intel_card /\
                 env card = env fake_intel_card) \/
                (name card = name fake_trident_card /\
                 env card = env fake_trident_card)
            end)
    (cards (ctl (main_loop_run events (main_startup fake devices)))).
Proof.
  destruct (daemon_inv fake devices events)
    as (_ & _ & _ & (data & devs & _ & ->) & _).
  apply get_drm_cards_Forall.
  - left. split; reflexivity.
  - right. split; reflexivity.
  - intros d card. unfold card_of_device, get_card_data.
    destruct (is_render_node d) eqn:Hrender; [|discriminate].
    destruct (get_card_env d) as [e|] eqn:He; [|discriminate].
    intros [= <-]. cbn. rewrite He. auto.
  - intros card Hcard. exact Hcard.
Qed.

(** ** Freeing card arrays *)

Lemma real_cards_free (devices : list GUdevDevice) :
  g_ptr_array_free (omap card_of_device devices) = true.
Proof.
  unfold g_ptr_array_free.
  induction devices as [|d l IH]; cbn; [reflexivity|].
  destruct (card_of_device d) as [card|] eqn:Hc; [|exact IH].
  cbn. rewrite IH, andb_true_r.
  unfold card_of_device, get_card_data in Hc.
  destruct (is_render_node d); [|discriminate].
  destruct (get_card_env d); [|discriminate].
  injection Hc as <-. reflexivity.
Qed.

Lemma g_ptr_array_free_alter (array : list CardData) :
  g_ptr_array_free (alter (set_is_default true) 0 array) = g_ptr_array_free array.
Proof. destruct array as [|card l]; reflexivity. Qed.

(** An enumeration returns an array that can be freed exactly when it was
    made without the synthetic cards. *)
Lemma get_drm_cards_free (data : ControlData) (devices : list GUdevDevice) :
  g_ptr_array_free (get_drm_cards data devices) = negb (add_fake_cards data).
Proof.
  rewrite get_drm_cards_collected.
  assert (g_ptr_array_free (collected_cards data devices)
            = negb (add_fake_cards data)) as Hfree.
  { unfold collected_cards, g_ptr_array_free. rewrite !forallb_app.
    fold (g_ptr_array_free (omap card_of_device devices)).
    rewrite real_cards_free.
    destruct (add_fake_cards data); reflexivity. }
  destruct (Nat.eqb _ 1); [rewrite g_ptr_array_free_alter|]; exact Hfree.
Qed.

Lemma enumerated_free (fake : bool) (cs : list CardData) :
  enumerated fake cs -> g_ptr_array_free cs = negb fake.
Proof. intros (data & devices & <- & ->). apply get_drm_cards_free. Qed.

Lemma send_dbus_event_crashed (w : World) :
  crashed (send_dbus_event w) = crashed w.
Proof. unfold send_dbus_event. destruct (connection (ctl w)); reflexivity. Qed.

Lemma main_loop_run_app (before after : list Event) (w : World) :
  main_loop_run (before ++ after) w = main_loop_run after (main_loop_run before w).
Proof. unfold main_loop_run. apply fold_left_app. Qed.

Lemma main_loop_run_crashed (events : list Event) (w : World) :
  crashed w = true -> main_loop_run events w = w.
Proof.
  intros Hdead. induction events as [|e events IH] using rev_ind; [reflexivity|].
  rewrite main_loop_run_snoc, IH. unfold dispatch. rewrite Hdead. reflexivity.
Qed.

(** In a state of a run without --fake a uevent frees its array and
    returns. *)
Lemma uevent_cb_without_fake (devices : list GUdevDevice) (w : World) :
  add_fake_cards (ctl w) = false ->
  g_ptr_array_free (cards (ctl w)) = true ->
  uevent_cb devices w =
    if negb (Nat.eqb (length (get_drm_cards (ctl w) devices)) (num_gpus (ctl w)))
    then send_dbus_event
           {| ctl := set_snapshot (ctl w) (get_drm_cards (ctl w) devices);
              emitted := emitted w;
              crashed := crashed w |}
    else w.
Proof.
  intros Hfake Hstored. unfold uevent_cb.
  rewrite Hstored, get_drm_cards_free, Hfake. reflexivity.
Qed.

(** C2 (amended): for a daemon running without --fake, whose stored
    cards all carry allocated names.  A uevent compares only the length of
    the fresh list with the stored count.  Equal: the state, stored list
    included, and the bus are left exactly as they were.  Different: the
    fresh list and its length replace the stored ones, nothing else in the
    state changes, and [send_dbus_event] runs on the result, which puts
    one signal for the fresh list on the bus when a connection exists and
    none otherwise. *)
Theorem uevent_reconciliation (devices : list GUdevDevice) (w : World) :
  add_fake_cards (ctl w) = false ->
  g_ptr_array_free (cards (ctl w)) = true ->
  (length (get_drm_cards (ctl w) devices) = num_gpus (ctl w) ->
     uevent_cb devices w = w) /\
  (length (get_drm_cards (ctl w) devices) <> num_gpus (ctl w) ->
     cards (ctl (uevent_cb devices w)) = get_drm_cards (ctl w) devices /\
     num_gpus (ctl (uevent_cb devices w)) = length (get_drm_cards (ctl w) devices) /\
     connection (ctl (uevent_cb devices w)) = connection (ctl w) /\
     init_done (ctl (uevent_cb devices w)) = init_done (ctl w) /\
     add_fake_cards (ctl (uevent_cb devices w)) = add_fake_cards (ctl w) /\
     crashed (uevent_cb devices w) = crashed w /\
     emitted (uevent_cb devices w) =
       match connection (ctl w) with
       | Some conn =>
           emitted w ++ [change_signal conn (get_drm_cards (ctl w) devices)]
       | None => emitted w
       end).
Proof.
  intros Hfake Hstored.
  rewrite (uevent_cb_without_fake devices w Hfake Hstored).
  split; intros Hlen.
  - apply Nat.eqb_eq in Hlen. rewrite Hlen. reflexivity.
  - apply Nat.eqb_neq in Hlen. rewrite Hlen. cbn [negb].
    rewrite send_dbus_event_ctl, send_dbus_event_crashed. cbn.
    repeat (split; [reflexivity|]).
    destruct (connection (ctl w)) as [conn|] eqn:Hconn.
    + erewrite send_dbus_event_connected; cbn; [reflexivity| |reflexivity].
      exact Hconn.
    + unfold send_dbus_event. cbn. rewrite Hconn. reflexivity.
Qed.

Lemma no_abort_without_fake_run (devices : list GUdevDevice) (events : list Event) :
  crashed (main_loop_run events (main_startup false devices)) = false.
Proof.
  induction events as [|e events IH] using rev_ind; [reflexivity|].
  rewrite main_loop_run_snoc.
  destruct (daemon_inv false devices events) as (Hfake & Hinit & _ & Henum & _).
  generalize dependent (main_loop_run events (main_startup false devices)).
  intros w Halive Hfake Hinit Henum.
  unfold dispatch. rewrite Halive.
  destruct e as [devs|conn|]; cbn.
  - rewrite uevent_cb_without_fake
      by (try exact Hfake; exact (enumerated_free _ _ Henum)).
    destruct (negb _); [rewrite send_dbus_event_crashed|]; exact Halive.
  - exact Halive.
  - unfold name_acquired_handler.
    destruct (init_done (ctl w)); [rewrite send_dbus_event_crashed|]; exact Halive.
Qed.

(** X4: without --fake, in any state of a run, handling the same query
    answer a second time changes nothing and sends nothing; so does the
    first uevent after startup when the hardware has not changed since. *)
Theorem uevent_cb_idempotent (startup_devices : list GUdevDevice)
  (events : list Event) (devices : list GUdevDevice) :
  uevent_cb devices
    (uevent_cb devices (main_loop_run events (main_startup false startup_devices))) =
  uevent_cb devices (main_loop_run events (main_startup false startup_devices)) /\
  uevent_cb startup_devices (main_startup false startup_devices) =
    main_startup false startup_devices.
Proof.
  split.
  - destruct (daemon_inv false startup_devices events)
      as (Hfake & _ & _ & Henum & _).
    generalize dependent (main_loop_run events (main_startup false startup_devices)).
    intros w Hfake Henum.
    rewrite (uevent_cb_without_fake devices w Hfake (enumerated_free _ _ Henum)).
    destruct (negb _) eqn:Hchanged.
    + rewrite uevent_cb_without_fake.
      * rewrite send_dbus_event_ctl. cbn.
        rewrite (get_drm_cards_flag _ (ctl w)) by reflexivity.
        rewrite Nat.eqb_refl. reflexivity.
      * rewrite send_dbus_event_ctl. exact Hfake.
      * rewrite send_dbus_event_ctl. cbn.
        rewrite get_drm_cards_free, Hfake. reflexivity.
    + rewrite (uevent_cb_without_fake devices w Hfake (enumerated_free _ _ Henum)).
      rewrite Hchanged. reflexivity.
  - rewrite uevent_cb_without_fake.
    + unfold main_startup. cbn.
      erewrite get_drm_cards_flag; [rewrite Nat.eqb_refl; reflexivity|].
      reflexivity.
    + reflexivity.
    + unfold main_startup. cbn. apply get_drm_cards_free.
Qed.

(** X15: without --fake, after a uevent in any state of a run the stored
    count is the length of what the enumeration of that query answer
    returns, whether or not the stored list was replaced: the number of
    retained devices. *)
Theorem count_follows_hardware (startup_devices : list GUdevDevice)
  (events : list Event) (devices : list GUdevDevice) :
  num_gpus (ctl (uevent_cb devices
                   (main_loop_run events (main_startup false startup_devices)))) =
    length (get_drm_cards
              (ctl (main_loop_run events (main_startup false startup_devices)))
              devices) /\
  num_gpus (ctl (uevent_cb devices
                   (main_loop_run events (main_startup false startup_devices)))) =
    length (List.filter retained devices).
Proof.
  destruct (daemon_inv false startup_devices events)
    as (Hfake & _ & _ & Henum & _).
  generalize dependent (main_loop_run events (main_startup false startup_devices)).
  intros w Hfake Henum.
  assert (num_gpus (ctl (uevent_cb devices w)) =
            length (get_drm_cards (ctl w) devices)) as Hcount.
  { rewrite (uevent_cb_without_fake devices w Hfake (enumerated_free _ _ Henum)).
    destruct (Nat.eqb_spec (length (get_drm_cards (ctl w) devices))
                (num_gpus (ctl w))) as [Heq|Hne]; cbn.
    - symmetry. exact Heq.
    - rewrite send_dbus_event_ctl. reflexivity. }
  split; [exact Hcount|].
  rewrite Hcount, get_drm_cards_length, collected_cards_length, Hfake.
  reflexivity.
Qed.

(** X17: started with --fake, the daemon aborts on its first uevent, in
    [g_free] of a synthetic card's name: the callback stores nothing and
    sends nothing, and whatever events follow, the bus never sees more
    than it had seen before that uevent. *)
Theorem fake_uevent_aborts (startup_devices : list GUdevDevice)
  (events : list Event) (devices : list GUdevDevice) (later : list Event) :
  uevent_cb devices (main_loop_run events (main_startup true startup_devices)) =
    abort (main_loop_run events (main_startup true startup_devices)) /\
  crashed (main_loop_run (events ++ Uevent devices :: later)
             (main_startup true startup_devices)) = true /\
  emitted (main_loop_run (events ++ Uevent devices :: later)
             (main_startup true startup_devices)) =
    emitted (main_loop_run events (main_startup true startup_devices)).
Proof.
  destruct (daemon_inv true startup_devices events)
    as (Hfake & _ & _ & Henum & _).
  rewrite main_loop_run_app.
  generalize dependent (main_loop_run events (main_startup true startup_devices)).
  intros w Hfake Henum.
  assert (uevent_cb devices w = abort w) as Habort.
  { unfold uevent_cb.
    rewrite (enumerated_free _ _ Henum), get_drm_cards_free, Hfake. cbn.
    destruct (negb _); reflexivity. }
  split; [exact Habort|].
  assert (crashed (dispatch (Uevent devices) w) = true /\
          emitted (dispatch (Uevent devices) w) = emitted w) as [Hdead Hsame].
  { unfold dispatch. destruct (crashed w) eqn:Hc; [auto|].
    rewrite Habort. split; reflexivity. }
  change (main_loop_run (Uevent devices :: later) w)
    with (main_loop_run later (dispatch (Uevent devices) w)).
  rewrite (main_loop_run_crashed later _ Hdead). split; assumption.
Qed.

(** X18: started without --fake, the daemon never aborts in a callback:
    every array it frees holds only cards built from devices, whose names
    were allocated. *)
Theorem no_abort_without_fake (devices : list GUdevDevice) (events : list Event) :
  crashed (main_loop_run events (main_startup false devices)) = false /\
  g_ptr_array_free (cards (ctl (main_loop_run events (main_startup false devices))))
    = true /\
  (forall queried,
     g_ptr_array_free
       (get_drm_cards (ctl (main_loop_run events (main_startup false devices)))
          queried) = true).
Proof.
  destruct (daemon_inv false devices events) as (Hfake & _ & _ & Henum & _).
  split; [apply no_abort_without_fake_run|].
  split; [exact (enumerated_free _ _ Henum)|].
  intros queried. rewrite get_drm_cards_free, Hfake. reflexivity.
Qed.

(** C7 (amended): a card without device carries a non-empty literal.  The
    name of a card built from a device is empty in exactly three cases:
    the vendor comes from an ID_VENDOR_FROM_DATABASE that is present but
    empty (the override being missing or empty) and there is no product;
    the same with vendor and product swapped; or both are there and the
    cleanup of "<vendor> <product>" is the empty string.  When neither a
    non-empty override nor a database property is there for either, the
    name is the fallback literal. *)
Theorem empty_card_names (data : ControlData) (devices : list GUdevDevice) :
  Forall (fun card =>
    match dev card with
    | None => name card <> EmptyString
    | Some d =>
        let parent := g_udev_device_get_parent d in
        let vendor_override :=
          g_udev_device_get_property parent "SWITCHEROO_CONTROL_VENDOR_NAME" in
        let vendor_database :=
          g_udev_device_get_property parent "ID_VENDOR_FROM_DATABASE" in
        let product_override :=
          g_udev_device_get_property parent "SWITCHEROO_CONTROL_PRODUCT_NAME" in
        let product_database :=
          g_udev_device_get_property parent "ID_MODEL_FROM_DATABASE" in
        (name card = EmptyString <->
           (null_or_empty vendor_override = true /\
            vendor_database = Some EmptyString /\
            null_or_empty product_override = true /\
            product_database = None) \/
           (null_or_empty vendor_override = true /\
            vendor_database = None /\
            null_or_empty product_override = true /\
            product_database = Some EmptyString) \/
           (exists v p,
              card_vendor parent = Some v /\
              card_product parent = Some p /\
              info_cleanup (String.append v (String.append " " p)) = EmptyString)) /\
        (null_or_empty vendor_override = true ->
         vendor_database = None ->
         null_or_empty product_override = true ->
         product_database = None ->
         name card = "Unknown Graphics Controller")
    end) (get_drm_cards data devices).
Proof.
  apply get_drm_cards_Forall.
  - discriminate.
  - discriminate.
  - intros d card. unfold card_of_device, get_card_data.
    destruct (is_render_node d); [|discriminate].
    destruct (get_card_env d); [|discriminate].
    intros [= <-]. cbn [dev name]. cbv zeta.
    unfold get_card_name, card_vendor, card_product.
    destruct (g_udev_device_get_property _ "SWITCHEROO_CONTROL_VENDOR_NAME")
      as [vo|] eqn:Hvo;
    destruct (g_udev_device_get_property _ "ID_VENDOR_FROM_DATABASE")
      as [vd|] eqn:Hvd;
    destruct (g_udev_device_get_property _ "SWITCHEROO_CONTROL_PRODUCT_NAME")
      as [po|] eqn:Hpo;
    destruct (g_udev_device_get_property _ "ID_MODEL_FROM_DATABASE")
      as [pd|] eqn:Hpd;
    cbn [null_or_empty];
    try destruct (String.eqb_spec vo EmptyString) as [->|Hvne];
    try destruct (String.eqb_spec po EmptyString) as [->|Hpne];
    cbn [name_of_vendor_product];
    (split; [|try discriminate; intros; try reflexivity; congruence]);
    (split;
     [ intros Hname;
       first [ right; right; do 2 eexists; split_and!; [reflexivity|reflexivity|exact Hname]
             | left; subst; split_and!; reflexivity
             | right; left; subst; split_and!; reflexivity
             | discriminate Hname
             | congruence ]
     | intros [(H1 & H2 & H3 & H4) | [(H1 & H2 & H3 & H4) | (v & p & H1 & H2 & H3)]];
       first [ discriminate | congruence ] ]).
  - intros card Hcard. exact Hcard.
Qed.

End Daemon.

(** ** Sample runs *)

Example intel_render_card :
  get_card_data keep_string intel_render =
    Some {| dev := Some intel_render;
            name := "Intel Corporation HD Graphics 530";
            name_allocated := true;
            env := [ "DRI_PRIME"; "pci-0000_00_02_0" ];
            is_default := false |}.
Proof. reflexivity. Qed.

Example control_node_skipped :
  get_drm_cards keep_string (fresh_data false) [intel_control; untagged_render] = [].
Proof. reflexivity. Qed.

Example two_gpus :
  map (fun card => (name card, is_default card))
    (get_drm_cards keep_string (fresh_data false)
       [intel_control; intel_render; amd_render]) =
  [ ("Intel Corporation HD Graphics 530", false);
    ("Advanced Micro Devices, Inc. Lexa PRO", false) ].
Proof. reflexivity. Qed.

Example startup_then_hotplug :
  let w := main_loop_run keep_string
             [BusAcquired system_bus; NameAcquired; Uevent [intel_render; amd_render]]
             (main_startup keep_string false [intel_render]) in
  map NumGPUs (emitted w) = [1; 2] /\
  map HasDualGpu (emitted w) = [false; true] /\
  num_gpus (ctl w) = 2.
Proof. repeat split. Qed.

Example fake_mode_signal :
  let w := main_loop_run keep_string [BusAcquired system_bus; NameAcquired]
             (main_startup keep_string true [intel_control]) in
  map (fun s => (NumGPUs s, HasDualGpu s, map Name (GPUs s))) (emitted w) =
    [ (2, true, [ "Intel i740 “Auburn”"; "Trident Vesa Local Bus 512KB" ]) ].
Proof. reflexivity. Qed.

Example single_gpu_signal :
  let w := main_loop_run keep_string [BusAcquired system_bus; NameAcquired]
             (main_startup keep_string false [intel_control; intel_render]) in
  map GPUs (emitted w) =
    [ [ {| Name := "Intel Corporation HD Graphics 530";
           Environment := [ "DRI_PRIME"; "pci-0000_00_02_0" ];
           Default := true |} ] ].
Proof. reflexivity. Qed.

Example fake_mode_hotplug :
  let w := main_loop_run keep_string
             [BusAcquired system_bus; NameAcquired; Uevent [intel_render]; NameAcquired]
             (main_startup keep_string true []) in
  crashed w = true /\
  map NumGPUs (emitted w) = [2] /\
  map name (cards (ctl w)) = [ "Intel i740 “Auburn”"; "Trident Vesa Local Bus 512KB" ].
Proof. repeat split. Qed.

(** ** The theorems at work on the machines above *)

Lemma nvidia_environment_witness :
  g_udev_device_get_driver (g_udev_device_get_parent nvidia_render) = Some "nvidia" /\
  g_udev_device_get_property (Some nvidia_render) "ID_PATH_TAG"
    = Some "pci-0000_01_00_0" /\
  resolve_environment nvidia_render =
    [ ("__GLX_VENDOR_LIBRARY_NAME", "nvidia");
      ("__NV_PRIME_RENDER_OFFLOAD", "1");
      ("__VK_LAYER_NV_optimus", "NVIDIA_only") ].
Proof.
  split; [reflexivity|]. split; [reflexivity|].
  apply (nvidia_environment nvidia_render). reflexivity.
Defined.

Lemma generic_environment_witness :
  g_strcmp0_is_0
    (g_udev_device_get_driver (g_udev_device_get_parent untagged_render)) "nvidia"
    = false /\
  g_udev_device_get_property (Some untagged_render) "ID_PATH_TAG" = None /\
  resolve_environment untagged_render = [] /\
  Forall (fun card => dev card <> Some untagged_render)
    (cards (ctl (main_startup keep_string true [intel_render; untagged_render]))).
Proof.
  split; [reflexivity|]. split; [reflexivity|].
  destruct (generic_environment keep_string untagged_render) as (_ & Hnone & _);
    [reflexivity|].
  destruct Hnone as [Hnil Hout]; [reflexivity|].
  split; [exact Hnil|].
  apply Hout. exists true, [intel_render; untagged_render], []. reflexivity.
Defined.

Lemma only_retained_device_is_default_witness :
  add_fake_cards (fresh_data false) = false /\
  get_card_is_default intel_render = false /\
  List.filter retained [intel_control; intel_render; untagged_render]
    = [intel_render] /\
  exists card,
    get_drm_cards keep_string (fresh_data false)
      [intel_control; intel_render; untagged_render] = [card] /\
    dev card = Some intel_render /\
    is_default card = true.
Proof.
  split; [reflexivity|]. split; [reflexivity|]. split; [reflexivity|].
  apply (proj1 (only_retained_device_is_default keep_string (fresh_data false)
                  [intel_control; intel_render; untagged_render]));
    reflexivity.
Defined.


Lemma publication_needs_connection_witness :
  connection (ctl (main_startup keep_string false [intel_render])) = None /\
  send_dbus_event (main_startup keep_string false [intel_render]) =
    main_startup keep_string false [intel_render].
Proof.
  split; [reflexivity|].
  apply (publication_needs_connection keep_string
           (main_startup keep_string false [intel_render])).
  reflexivity.
Defined.

(** The stored card is the Intel one; the event finds only the AMD one. *)
Lemma uevent_reconciliation_witness :
  let w := main_startup keep_string false [intel_render] in
  add_fake_cards (ctl w) = false /\
  g_ptr_array_free (cards (ctl w)) = true /\
  length (get_drm_cards keep_string (ctl w) [amd_render]) = num_gpus (ctl w) /\
  map name (get_drm_cards keep_string (ctl w) [amd_render]) <> map name (cards (ctl w)) /\
  uevent_cb keep_string [amd_render] w = w.
Proof.
  cbv zeta.
  split; [reflexivity|]. split; [reflexivity|].
  split; [reflexivity|]. split; [discriminate|].
  apply (uevent_reconciliation keep_string [amd_render]
           (main_startup keep_string false [intel_render]));
    reflexivity.
Defined.

Lemma empty_card_names_witness :
  let card := {| dev := Some blank_model_render;
                 name := EmptyString;
                 name_allocated := true;
                 env := [ "DRI_PRIME"; "pci-0000_00_02_0" ];
                 is_default := true |} in
  get_drm_cards keep_string (fresh_data false) [blank_model_render] = [card] /\
  g_udev_device_get_property (g_udev_device_get_parent blank_model_render)
    "ID_MODEL_FROM_DATABASE" = Some EmptyString /\
  name card = EmptyString.
Proof.
  intros card. split; [reflexivity|]. split; [reflexivity|].
  pose proof (empty_card_names keep_string (fresh_data false) [blank_model_render])
    as Hall.
  pose proof (proj1 (List.Forall_forall _ _) Hall card (or_introl eq_refl)) as Hcard.
  unfold card in Hcard. cbn [dev] in Hcard.
  destruct Hcard as [[_ Hblank] _]. apply Hblank.
  right. left. repeat split.
Defined.

Lemma empty_override_is_absent_witness :
  g_udev_device_get_property (g_udev_device_get_parent empty_override_render)
    "SWITCHEROO_CONTROL_VENDOR_NAME" = Some EmptyString /\
  g_udev_device_get_property (g_udev_device_get_parent empty_override_render)
    "ID_VENDOR_FROM_DATABASE" = Some "Intel Corporation" /\
  get_card_name keep_string empty_override_render =
    get_card_name keep_string
      (without_parent_property "SWITCHEROO_CONTROL_VENDOR_NAME" empty_override_render) /\
  get_card_name keep_string empty_override_render =
    "Intel Corporation HD Graphics 530".
Proof.
  split; [reflexivity|]. split; [reflexivity|].
  destruct (empty_override_is_absent keep_string empty_override_render)
    as (Hvendor & _ & _ & _ & Hname & _).
  split; [apply Hvendor|apply Hname]; reflexivity.
Defined.

(** ** Where the specification's wording and the code part *)

(** With --fake and no hardware the count is 2, not the number of
    retained devices. *)
Lemma enumeration_count_fake_counterexample :
  length (get_drm_cards keep_string (fresh_data true) []) <>
  length (List.filter retained []).
Proof. cbn. discriminate. Qed.

(** Without --fake, a GPU appears before the bus connection exists: the
    callback runs to its end, the snapshot is replaced, and nothing is
    sent. *)
Lemma uevent_without_connection_counterexample :
  let w := main_startup keep_string false [] in
  length (get_drm_cards keep_string (ctl w) [intel_render]) <> num_gpus (ctl w) /\
  crashed (uevent_cb keep_string [intel_render] w) = false /\
  num_gpus (ctl (uevent_cb keep_string [intel_render] w)) = 1 /\
  emitted (uevent_cb keep_string [intel_render] w) = emitted w.
Proof. cbv zeta. split; [cbn; discriminate|repeat split]. Qed.

(** With --fake and one retained device that is not the boot device, the
    device's card comes back between the two synthetic ones and is not
    the default. *)
Lemma fake_lone_device_counterexample :
  List.filter retained [intel_render] = [intel_render] /\
  get_card_is_default intel_render = false /\
  map (fun card => (dev card, is_default card))
    (get_drm_cards keep_string (fresh_data true) [intel_render]) =
    [ (None, false); (Some intel_render, false); (None, false) ].
Proof. repeat split. Qed.

(** An empty ID_VENDOR_FROM_DATABASE and no model: the card is published
    with an empty name. *)
Lemma empty_name_counterexample :
  exists card,
    cards (ctl (main_startup keep_string false [blank_vendor_render])) = [card] /\
    name card = EmptyString.
Proof. eexists. split; reflexivity. Qed.

(** ** Whole runs on the machines above *)

Lemma reads_agree_with_last_signal_witness :
  let events := [BusAcquired system_bus; NameAcquired; Uevent [intel_render; amd_render]] in
  let w := main_loop_run keep_string events (main_startup keep_string false [intel_render]) in
  last (emitted w) = Some (change_signal system_bus (cards (ctl w))) /\
  handle_get_property (ctl w) (Some "NumGPUs") = Returned (Some (GVariantUint32 2)) /\
  handle_get_property (ctl w) (Some "HasDualGpu") = Returned (Some (GVariantBoolean true)).
Proof.
  cbv zeta. split; [reflexivity|].
  destruct (reads_agree_with_last_signal keep_string false [intel_render]
              [BusAcquired system_bus; NameAcquired; Uevent [intel_render; amd_render]]
              (change_signal system_bus
                 (get_drm_cards keep_string (fresh_data false) [intel_render; amd_render])))
    as (Hdual & Hnum & _); [reflexivity|].
  split; [exact Hnum|exact Hdual].
Defined.

Lemma lone_gpu_is_default_witness :
  get_card_is_default intel_render = false /\
  exists card,
    cards (ctl (main_loop_run keep_string [Uevent [intel_render]]
                  (main_startup keep_string false []))) = [card] /\
    is_default card = true.
Proof.
  split; [reflexivity|]. eexists. split; [reflexivity|].
  apply (proj1 (lone_gpu_is_default keep_string false [] [Uevent [intel_render]])).
  reflexivity.
Defined.

Lemma property_reads_after_acquisition_witness :
  let w := bus_acquired_handler system_bus (main_startup keep_string false [intel_render]) in
  is_Some (connection (ctl w)) /\
  g_strcmp0_is_0 (Some "Vendor") "HasDualGpu" = false /\
  g_strcmp0_is_0 (Some "Vendor") "NumGPUs" = false /\
  g_strcmp0_is_0 (Some "Vendor") "GPUs" = false /\
  handle_get_property
    (ctl (main_loop_run keep_string [Uevent []; NameAcquired] w)) (Some "Vendor")
    = Returned None.
Proof.
  cbv zeta. split; [eexists; reflexivity|].
  split; [reflexivity|]. split; [reflexivity|]. split; [reflexivity|].
  apply (property_reads_after_acquisition keep_string [Uevent []; NameAcquired]
           (bus_acquired_handler system_bus (main_startup keep_string false [intel_render]))
           (Some "Vendor")); [eexists|..]; reflexivity.
Defined.

Lemma override_wins_witness :
  null_or_empty
    (g_udev_device_get_property (g_udev_device_get_parent override_render)
       "SWITCHEROO_CONTROL_VENDOR_NAME") = false /\
  get_card_name keep_string override_render = "Intel HD Graphics 530" /\
  get_card_name keep_string
    (with_parent_property "ID_VENDOR_FROM_DATABASE" "Acme" override_render) =
    get_card_name keep_string override_render.
Proof.
  split; [reflexivity|]. split; [reflexivity|].
  destruct (override_wins keep_string override_render) as [Hvendor _].
  destruct Hvendor as (_ & Hany & _); [reflexivity|].
  apply Hany.
Defined.

Lemma parentless_device_witness :
  g_udev_device_get_parent orphan_render = None /\
  get_card_name keep_string orphan_render = "Unknown Graphics Controller" /\
  get_card_env orphan_render = Some [ "DRI_PRIME"; "platform-vgem" ].
Proof.
  split; [reflexivity|].
  destruct (parentless_device keep_string orphan_render) as (Hname & _ & Henv);
    [reflexivity|].
  split; [exact Hname|exact Henv].
Defined.

Lemma enumeration_frame_witness :
  let connected :=
    ctl (bus_acquired_handler system_bus
           (main_startup keep_string false [amd_render])) in
  add_fake_cards (fresh_data false) = add_fake_cards connected /\
  List.filter retained [intel_control; intel_render; untagged_render] = [intel_render] /\
  get_drm_cards keep_string (fresh_data false)
    [intel_control; intel_render; untagged_render] =
  get_drm_cards keep_string connected [intel_render].
Proof.
  cbv zeta. split; [reflexivity|]. split; [reflexivity|].
  apply (enumeration_frame keep_string (fresh_data false)
           (ctl (bus_acquired_handler system_bus
                   (main_startup keep_string false [amd_render])))
           [intel_control; intel_render; untagged_render]).
  reflexivity.
Defined.

Lemma render_node_paths_witness :
  g_udev_device_get_device_file intel_render
    = Some (String.append "/dev/dri/render" "D128") /\
  is_render_node intel_render = true.
Proof.
  split; [reflexivity|].
  apply (proj2 (render_node_paths intel_render)).
  exists "D128". reflexivity.
Defined.
